(** * BIGenetics: the alert classification engine of the SAM recovery dashboard

    A shallow embedding of the rule evaluator of [src/app.py]
    ([get_zone_status], [safe_get_value], [generate_alert] and the
    genotype annotations of the athlete page) and of the threshold table
    of [src/templateGenerator.py], with the properties the specification
    states about them.

    Python values are modelled by [pyval]; numbers are IEEE 754 binary64
    values (Rocq's primitive floats, the very format of Python's [float]
    and of a pandas numeric column), so that comparisons, the division of
    the trend test and [NaN] behave as they do in the program.  A pandas
    frame is a set of column labels and a list of rows; an exception is a
    value of [exn] threaded through the [result] monad, and each
    [try ... except Exception] of the source is a function that maps
    [Raise] to the handler's value. *)

From Stdlib Require Import ZArith NArith Floats.PrimFloat Floats.SpecFloat
  Floats.FloatOps Floats.FloatAxioms DecimalString Ascii String.
From stdpp Require Import gmap strings list fin_maps.

Set Warnings "-inexact-float".

(** ** Python values and exceptions *)

(** [datetime.time] (naive): hour, minute, second, microsecond. *)
Record time := dt_time4 { hour : N; minute : N; second : N; microsecond : N }.

(** [dt_time(h, m)] of the source. *)
Definition dt_time (h m : N) : time := dt_time4 h m 0 0.

(** The values a cell of a frame or a local variable can hold.  [Num]
    covers Python and numpy integers and floats through their binary64
    value; a missing numeric cell is [Num nan], as pandas stores it. *)
Inductive pyval :=
  | Num (f : float)
  | Time (t : time)
  | Str (s : string)
  | NoneV.

Inductive exn :=
  | TypeError (msg : string)
  | KeyError (key : string)
  | IndexError (msg : string)
  | AttributeError (msg : string)
  | ValueError (msg : string).

(** [str(e)]: the message; a [KeyError] prints the [repr] of its key. *)
Definition str_exn (e : exn) : string :=
  match e with
  | TypeError msg | IndexError msg | AttributeError msg | ValueError msg => msg
  | KeyError key => "'" +:+ key +:+ "'"
  end.

Inductive result (A : Type) :=
  | Ok (a : A)
  | Raise (e : exn).
Arguments Ok {A} a.
Arguments Raise {A} e.

(** The exception monad, with stdpp's [x ← r; k] notation. *)
#[global] Instance result_ret : MRet result := fun A a => Ok a.
#[global] Instance result_bind : MBind result := fun A B k r =>
  match r with
  | Ok a => k a
  | Raise e => Raise e
  end.

(** [type(v).__name__] as it appears in error messages.  A number is
    named ['float']: Python prints ['int'] for an integer literal or
    cell and the numpy name for a numpy scalar, so for a numeric operand
    the text of a modelled message can differ from the program's in that
    name; texts, times and [None] are named as Python names them. *)
Definition type_name (v : pyval) : string :=
  match v with
  | Num _ => "float"
  | Time _ => "datetime.time"
  | Str _ => "str"
  | NoneV => "NoneType"
  end.

(** [pd.isna] on a scalar: [NaN] and [None] are missing. *)
Definition pd_isna (v : pyval) : bool :=
  match v with
  | Num f => is_nan f
  | NoneV => true
  | Time _ | Str _ => false
  end.

Definition pd_notna (v : pyval) : bool := negb (pd_isna v).

(** Truth value of an object ([if x] / [x and ...]). *)
Definition py_truthy (v : pyval) : bool :=
  match v with
  | Num f => negb (PrimFloat.eqb f 0)
  | Time _ => true
  | Str s => negb (String.eqb s "")
  | NoneV => false
  end.

(** *** Comparison operators *)

Inductive cmpop := OpLt | OpLe | OpGt | OpGe.

Definition op_symbol (op : cmpop) : string :=
  match op with
  | OpLt => "<" | OpLe => "<=" | OpGt => ">" | OpGe => ">="
  end.

(** Floats compare as IEEE 754 prescribes: every test against [NaN] is false. *)
Definition float_cmp (op : cmpop) (a b : float) : bool :=
  match op with
  | OpLt => PrimFloat.ltb a b
  | OpLe => PrimFloat.leb a b
  | OpGt => PrimFloat.ltb b a
  | OpGe => PrimFloat.leb b a
  end.

Definition ord_cmp (op : cmpop) (c : comparison) : bool :=
  match op, c with
  | OpLt, Lt | OpLe, (Lt | Eq) | OpGt, Gt | OpGe, (Gt | Eq) => true
  | _, _ => false
  end.

Definition time_compare (a b : time) : comparison :=
  match N.compare (hour a) (hour b) with
  | Eq =>
      match N.compare (minute a) (minute b) with
      | Eq =>
          match N.compare (second a) (second b) with
          | Eq => N.compare (microsecond a) (microsecond b)
          | c => c
          end
      | c => c
      end
  | c => c
  end.

(** [a op b]: numbers with numbers, times with times, strings with
    strings; anything else is a [TypeError]. *)
Definition py_compare (op : cmpop) (a b : pyval) : result bool :=
  match a, b with
  | Num x, Num y => Ok (float_cmp op x y)
  | Time s, Time t => Ok (ord_cmp op (time_compare s t))
  | Str s, Str t => Ok (ord_cmp op (String.compare s t))
  | _, _ =>
      Raise (TypeError ("'" +:+ op_symbol op +:+ "' not supported between instances of '"
                          +:+ type_name a +:+ "' and '" +:+ type_name b +:+ "'"))
  end.

Definition py_lt := py_compare OpLt.
Definition py_le := py_compare OpLe.
Definition py_gt := py_compare OpGt.
Definition py_ge := py_compare OpGe.

(** *** Arithmetic *)

Definition unsupported_operand (sym : string) (a b : pyval) : exn :=
  TypeError ("unsupported operand type(s) for " +:+ sym +:+ ": '"
               +:+ type_name a +:+ "' and '" +:+ type_name b +:+ "'").

(** [a - b] on binary64 values; an operand that is no number raises a
    [TypeError] (numpy words its message differently when the other
    operand is a numpy scalar).  Integers are held by their binary64
    value, exact below 2^53: the wrap-around of numpy's 64-bit integers
    beyond that range is not modelled. *)
Definition py_sub (a b : pyval) : result pyval :=
  match a, b with
  | Num x, Num y => Ok (Num (x - y)%float)
  | _, _ => Raise (unsupported_operand "-" a b)
  end.

(** True division of numpy scalars (the source only divides by a value it
    has just tested to be positive). *)
Definition py_truediv (a b : pyval) : result pyval :=
  match a, b with
  | Num x, Num y => Ok (Num (x / y)%float)
  | _, _ => Raise (unsupported_operand "/" a b)
  end.

(** *** Formatting: [f"{x:.0f}"], [f"{x:.1f}"] and [strftime('%H:%M')] *)

Definition decimal (n : Z) : string := NilZero.string_of_uint (N.to_uint (Z.to_N n)).

Fixpoint zeros (k : nat) : string :=
  match k with
  | O => ""
  | S k => "0" +:+ zeros k
  end.

Definition zero_pad (width : nat) (s : string) : string :=
  zeros (width - String.length s) +:+ s.

(** The integer nearest to [num / den], ties to the even one. *)
Definition round_half_even (num den : Z) : Z :=
  let q := (num / den)%Z in
  match (2 * (num mod den) ?= den)%Z with
  | Lt => q
  | Gt => (q + 1)%Z
  | Eq => if Z.even q then q else (q + 1)%Z
  end.

(** [m * 2^e * 10^prec], correctly rounded to an integer. *)
Definition scaled (prec : nat) (m : positive) (e : Z) : Z :=
  let p := (10 ^ Z.of_nat prec)%Z in
  if (0 <=? e)%Z then (Z.pos m * 2 ^ e * p)%Z
  else round_half_even (Z.pos m * p) (2 ^ (- e)).

Definition fixed (prec : nat) (sign : bool) (n : Z) : string :=
  let p := (10 ^ Z.of_nat prec)%Z in
  (if sign then "-" else "")
    +:+ decimal (n / p)
    +:+ match prec with
       | O => ""
       | S _ => "." +:+ zero_pad prec (decimal (n mod p))
       end.

(** [format(x, '.<prec>f')] of a float: the exact binary value rounded
    half-to-even to [prec] decimals, the sign kept. *)
Definition format_float (prec : nat) (x : float) : string :=
  match Prim2SF x with
  | S754_nan => "nan"
  | S754_infinity s => if s then "-inf" else "inf"
  | S754_zero s => fixed prec s 0
  | S754_finite s m e => fixed prec s (scaled prec m e)
  end.

Definition py_format_f (prec : nat) (v : pyval) : result string :=
  match v with
  | Num x => Ok (format_float prec x)
  | Str _ => Raise (ValueError "Unknown format code 'f' for object of type 'str'")
  | Time _ => Raise (ValueError "Invalid format string")
  | NoneV => Raise (TypeError "unsupported format string passed to NoneType.__format__")
  end.

Definition strftime_HM (v : pyval) : result string :=
  match v with
  | Time t =>
      Ok (zero_pad 2 (decimal (Z.of_N (hour t))) +:+ ":"
            +:+ zero_pad 2 (decimal (Z.of_N (minute t))))
  | _ => Raise (AttributeError ("'" +:+ type_name v +:+ "' object has no attribute 'strftime'"))
  end.

(** ** Frames *)

(** A row ([pd.Series] indexed by column label), and a frame. *)
Abbreviation Series := (gmap string pyval).

Record DataFrame := { columns : gset string; rows : list Series }.

Definition len (df : DataFrame) : nat := length (rows df).

(** [row[column]] for a label of the row's index; pandas holds [NaN]
    where a record gave no value. *)
Definition cell (row : Series) (column : string) : pyval :=
  default (Num nan) (row !! column).

(** [pd.DataFrame(data)] for a list of records: the columns are the union
    of the records' keys and each row is completed with [NaN]. *)
Definition fill (cols : gset string) (r : Series) : Series :=
  r ∪ gset_to_gmap (Num nan) cols.

Definition pd_DataFrame (data : list Series) : DataFrame :=
  let cols := ⋃ (dom <$> data) in
  {| columns := cols; rows := fill cols <$> data |}.

(** [df.iloc[-k]] for [k >= 1]. *)
Definition iloc_back (df : DataFrame) (k : nat) : result Series :=
  if (k <=? len df)%nat then
    match rows df !! (len df - k)%nat with
    | Some r => Ok r
    | None => Raise (IndexError "single positional indexer is out-of-bounds")
    end
  else Raise (IndexError "single positional indexer is out-of-bounds").

(** [safe_get_value], app.py lines 239-247: body of the [try]. *)
Definition safe_get_value_try (df : DataFrame) (column : string) (default : pyval)
  : result pyval :=
  if bool_decide (column ∈ columns df) then
    value ← (if (0 <? len df)%nat
             then r ← iloc_back df 1; Ok (cell r column)
             else Ok default);
    Ok (if negb (pd_isna value) then value else default)
  else Ok default.

Definition safe_get_value (df : DataFrame) (column : string) (default : pyval) : pyval :=
  match safe_get_value_try df column default with
  | Ok v => v
  | Raise _ => default
  end.

(** ** The zone classifier: [get_zone_status], app.py lines 199-237 *)

(** [row.get(key, default)] and [row[key]] on a row. *)
Definition row_get (row : Series) (key : string) (default : pyval) : pyval :=
  match row !! key with
  | Some v => v
  | None => default
  end.

Definition row_getitem (row : Series) (key : string) : result pyval :=
  match row !! key with
  | Some v => Ok v
  | None => Raise (KeyError key)
  end.

(** [thresholds[thresholds['metric_name'] == metric_name]]. *)
Definition is_metric (metric_name : string) (row : Series) : bool :=
  match cell row "metric_name" with
  | Str s => String.eqb s metric_name
  | _ => false
  end.

Definition matching_rows (thresholds : DataFrame) (metric_name : string)
  : result (list Series) :=
  if bool_decide ("metric_name" ∈ columns thresholds)
  then Ok (List.filter (is_metric metric_name) (rows thresholds))
  else Raise (KeyError "metric_name").

(** The primary pair of a band and, when the column of the second lower
    bound exists and holds a value, the secondary pair (lines 212-214 and
    221-223). *)
Definition band_ranges (row : Series) (low high low2 high2 : string)
  : result (list (pyval * pyval)) :=
  let ranges := [(row_get row low (Num infinity), row_get row high (Num neg_infinity))] in
  match row !! low2 with
  | Some l2 =>
      if pd_notna l2 then
        l ← row_getitem row low2;
        h ← row_getitem row high2;
        Ok (ranges ++ [(l, h)])
      else Ok ranges
  | None => Ok ranges
  end.

(** [not (pd.isna(low) or pd.isna(high)) and low <= value <= high]. *)
Definition within (low high value : pyval) : result bool :=
  if negb (pd_isna low || pd_isna high) then
    b ← py_le low value;
    if b : bool then py_le value high else Ok false
  else Ok false.

(** The [for ... : if ...: return] loops: does some pair contain the value? *)
Fixpoint any_within (ranges : list (pyval * pyval)) (value : pyval) : result bool :=
  match ranges with
  | [] => Ok false
  | (low, high) :: rest =>
      b ← within low high value;
      if b : bool then Ok true else any_within rest value
  end.

Definition get_zone_status_try (value : pyval) (metric_name : string)
    (thresholds : DataFrame) : result string :=
  if pd_isna value then Ok "⚪ No Data"
  else
    matching ← matching_rows thresholds metric_name;
    match matching with
    | [] => Ok "⚪ No Config"
    | row :: _ =>
        red_ranges ← band_ranges row "red_low" "red_high" "red_low2" "red_high2";
        red ← any_within red_ranges value;
        if red : bool then Ok "🔴 Red"
        else
          yellow_ranges ← band_ranges row "yellow_low" "yellow_high" "yellow_low2" "yellow_high2";
          yellow ← any_within yellow_ranges value;
          if yellow : bool then Ok "🟡 Yellow"
          else
            let green_low := row_get row "green_low" (Num infinity) in
            let green_high := row_get row "green_high" (Num neg_infinity) in
            green ← within green_low green_high value;
            if green : bool then Ok "🟢 Green" else Ok "⚪ Unknown"
    end.

Definition get_zone_status (value : pyval) (metric_name : string)
    (thresholds : DataFrame) : string :=
  match get_zone_status_try value metric_name thresholds with
  | Ok status => status
  | Raise _ => "⚪ Error"
  end.

(** The threshold table, templateGenerator.py lines 229-241. *)
Definition config_row (metric_name : string) (green_low green_high yellow_low
    yellow_high red_low red_high : float) (unit : string) : Series :=
  <["metric_name" := Str metric_name]> (
  <["green_low" := Num green_low]> (<["green_high" := Num green_high]> (
  <["yellow_low" := Num yellow_low]> (<["yellow_high" := Num yellow_high]> (
  <["red_low" := Num red_low]> (<["red_high" := Num red_high]> (
  <["unit" := Str unit]> ∅))))))).

Definition config_row2 (metric_name : string) (green_low green_high yellow_low
    yellow_high red_low red_high yellow_low2 yellow_high2 red_low2 red_high2 : float)
    (unit : string) : Series :=
  <["yellow_low2" := Num yellow_low2]> (<["yellow_high2" := Num yellow_high2]> (
  <["red_low2" := Num red_low2]> (<["red_high2" := Num red_high2]> (
  config_row metric_name green_low green_high yellow_low yellow_high red_low red_high unit)))).

Definition metrics_config : DataFrame := pd_DataFrame [
  config_row "resting_hr" 42 54 55 59 60 100 "bpm";
  config_row "avg_hr_day" 50 68 69 74 75 120 "bpm";
  config_row "spo2_night" 97 100 95 96 0 94 "%";
  config_row "hrv_night" 90 200 70 89 0 69 "ms";
  config_row "deep_sleep_pct" 22 100 17 21 0 16 "%";
  config_row2 "rem_sleep_pct" 20 25 16 19 0 15 26 30 31 100 "%";
  config_row "light_sleep_pct" 35 45 46 50 51 100 "%";
  config_row "sleep_duration_h" 8.0 9.2 7.0 7.9 0 6.9 "h";
  config_row "resp_rate_night" 10 14 15 16 17 100 "/min";
  config_row2 "temp_trend_c" 36.4 36.9 37.0 37.3 37.4 42.0 36.3 36.3 0 36.2 "°C";
  config_row "training_load_pct" 100 100 85 99 0 70 "%"
].

(** ** The alert classifier: [generate_alert], app.py lines 249-341 *)

(** A Python [dict] from gene symbol to genotype label, in insertion
    order; the keys of a dict are pairwise distinct. *)
Abbreviation Dict := (list (string * string)).

Fixpoint dict_get (d : Dict) (key : string) : option string :=
  match d with
  | [] => None
  | (k, v) :: rest => if String.eqb k key then Some v else dict_get rest key
  end.

(** The returned [dict] with the keys "type", "title", "cause", "rec". *)
Record Alert := { type : string; title : string; cause : string; rec : string }.

(** The values read from the latest row, lines 263-271. *)
Record Readings := {
  hrv_night : pyval;
  resting_hr : pyval;
  temp_trend_c : pyval;
  spo2_night : pyval;
  deep_sleep_pct : pyval;
  rem_sleep_pct : pyval;
  sleep_duration_h : pyval;
  resp_rate_night : pyval;
  sleep_onset_time : pyval
}.

Definition read_latest (df : DataFrame) : Readings := {|
  hrv_night := safe_get_value df "hrv_night" (Num 50);
  resting_hr := safe_get_value df "resting_hr" (Num 60);
  temp_trend_c := safe_get_value df "temp_trend_c" (Num 36.5);
  spo2_night := safe_get_value df "spo2_night" (Num 97);
  deep_sleep_pct := safe_get_value df "deep_sleep_pct" (Num 20);
  rem_sleep_pct := safe_get_value df "rem_sleep_pct" (Num 20);
  sleep_duration_h := safe_get_value df "sleep_duration_h" (Num 8);
  resp_rate_night := safe_get_value df "resp_rate_night" (Num 15);
  sleep_onset_time := safe_get_value df "sleep_onset_time" NoneV
|}.

(** The boolean conditions of lines 274-295. *)
Record Flags := {
  hrv_drop : bool;
  rhr_rise : bool;
  temp_high : bool;
  spo2_low : bool;
  deep_low : bool;
  rem_low : bool;
  sleep_short : bool;
  resp_high : bool;
  sleep_late : bool
}.

(** [prev_hrv] and [prev_rhr], lines 275-277. *)
Definition prev_hrv_of (prev : Series) : pyval :=
  safe_get_value (pd_DataFrame [prev]) "hrv_night" (Num 50).

Definition prev_rhr_of (prev : Series) : pyval :=
  safe_get_value (pd_DataFrame [prev]) "resting_hr" (Num 60).

(** The deviation logic, lines 274-283: [(hrv_drop, rhr_rise)]. *)
Definition deviation (df : DataFrame) (hrv_night resting_hr : pyval)
  : result (bool * bool) :=
  if (2 <=? len df)%nat then
    prev ← iloc_back df 2;
    let prev_hrv := prev_hrv_of prev in
    let prev_rhr := prev_rhr_of prev in
    hrv_drop ← (positive ← py_gt prev_hrv (Num 0);
                if positive : bool then
                  d ← py_sub prev_hrv hrv_night;
                  q ← py_truediv d prev_hrv;
                  py_gt q (Num 0.15)
                else Ok false);
    rhr_rise ← (positive ← py_gt prev_rhr (Num 0);
                if positive : bool then
                  d ← py_sub resting_hr prev_rhr;
                  q ← py_truediv d prev_rhr;
                  py_gt q (Num 0.05)
                else Ok false);
    Ok (hrv_drop, rhr_rise)
  else
    hrv_drop ← py_lt hrv_night (Num 40);
    rhr_rise ← py_gt resting_hr (Num 70);
    Ok (hrv_drop, rhr_rise).

Definition ref_time : time := dt_time 23 30.

(** Lines 274-295. *)
Definition compute_flags (df : DataFrame) (v : Readings) : result Flags :=
  '(hrv_drop, rhr_rise) ← deviation df (hrv_night v) (resting_hr v);
  temp_high ← py_ge (temp_trend_c v) (Num 37.0);
  spo2_low ← py_le (spo2_night v) (Num 94);
  deep_low ← py_lt (deep_sleep_pct v) (Num 17);
  rem_low ← py_lt (rem_sleep_pct v) (Num 16);
  sleep_short ← py_lt (sleep_duration_h v) (Num 7.0);
  resp_high ← py_ge (resp_rate_night v) (Num 17);
  sleep_late ← match sleep_onset_time v with
               | NoneV => Ok false
               | onset => py_gt onset (Time ref_time)
               end;
  Ok {| hrv_drop := hrv_drop; rhr_rise := rhr_rise; temp_high := temp_high;
        spo2_low := spo2_low; deep_low := deep_low; rem_low := rem_low;
        sleep_short := sleep_short; resp_high := resp_high;
        sleep_late := sleep_late |}.

(** The rule chain, lines 298-333. *)
Definition alert_rules (v : Readings) (f : Flags) : result Alert :=
  if hrv_drop f && rhr_rise f && temp_high f && spo2_low f then
    hrv ← py_format_f 0 (hrv_night v);
    rhr ← py_format_f 0 (resting_hr v);
    temp ← py_format_f 1 (temp_trend_c v);
    spo2 ← py_format_f 1 (spo2_night v);
    Ok {| type := "inflammation";
          title := "⚠️ Inflammation/Illness Risk";
          cause := "HRV↓(" +:+ hrv +:+ ") + RHR↑(" +:+ rhr +:+ ") + Temp↑(" +:+ temp
                     +:+ ") + SpO₂↓(" +:+ spo2 +:+ ")";
          rec := "Prioritize rest, hydration, anti-inflammatory nutrition. Monitor temperature closely." |}
  else if hrv_drop f && deep_low f && sleep_late f then
    onset_str ← (if py_truthy (sleep_onset_time v)
                 then strftime_HM (sleep_onset_time v)
                 else Ok "Late");
    deep ← py_format_f 1 (deep_sleep_pct v);
    Ok {| type := "circadian";
          title := "🌙 Circadian Misalignment";
          cause := "HRV↓ + Deep Sleep↓(" +:+ deep +:+ "%) + Late Sleep(" +:+ onset_str +:+ ")";
          rec := "Advance bedtime by 45min, increase morning light exposure, avoid screens after 9PM." |}
  else if hrv_drop f && rem_low f && negb (temp_high f) then
    rem ← py_format_f 1 (rem_sleep_pct v);
    Ok {| type := "nutrition";
          title := "🥗 Possible Nutrient Gap";
          cause := "HRV↓ + REM↓(" +:+ rem +:+ "%) with stable temperature";
          rec := "Check iron, magnesium, omega-3, B12 status. Increase nutrient-dense foods." |}
  else if spo2_low f && resp_high f then
    spo2 ← py_format_f 1 (spo2_night v);
    resp ← py_format_f 1 (resp_rate_night v);
    Ok {| type := "airway";
          title := "🌬️ Airway/Respiratory Stress";
          cause := "SpO₂=" +:+ spo2 +:+ "% + Resp Rate=" +:+ resp +:+ "/min";
          rec := "Evaluate sleep environment, nasal breathing. Consider air quality assessment." |}
  else
    Ok {| type := "green";
          title := "🟢 Optimal Recovery State";
          cause := "All metrics within target ranges";
          rec := "Maintain current training and recovery protocols." |}.

Definition no_data_alert : Alert :=
  {| type := "no_data";
     title := "📊 No Data";
     cause := "No recent biometric data available";
     rec := "Please ensure data collection is active." |}.

(** The body of the [try], lines 252-333. *)
Definition generate_alert_try (athlete_id : string) (df : DataFrame)
    (genetic_dict : Dict) : result Alert :=
  if (len df =? 0)%nat then Ok no_data_alert
  else
    latest ← iloc_back df 1;
    let v := read_latest df in
    f ← compute_flags df v;
    alert_rules v f.

(** The handler, lines 335-341. *)
Definition error_alert (e : exn) : Alert :=
  {| type := "error";
     title := "❌ Analysis Error";
     cause := "Error processing data: " +:+ substring 0 50 (str_exn e) +:+ "...";
     rec := "Check data quality and try refreshing the dashboard." |}.

Definition generate_alert (athlete_id : string) (df : DataFrame)
    (genetic_dict : Dict) : Alert :=
  match generate_alert_try athlete_id df genetic_dict with
  | Ok alert => alert
  | Raise e => error_alert e
  end.

(** ** The genotype annotations, app.py lines 717-754 *)

Record Insight := { gene : string; trait : string; recommendation : string }.

Definition per3_long : Insight :=
  {| gene := "PER3 (Long variant)";
     trait := "Natural night owl tendency";
     recommendation := "Allow later bedtimes when possible, prioritize consistent wake times, use bright light therapy in morning" |}.

Definition per3_short : Insight :=
  {| gene := "PER3 (Short variant)";
     trait := "Natural early bird tendency";
     recommendation := "Optimize early morning training, avoid late evening intense exercise, maintain regular early bedtime" |}.

Definition clock_aa : Insight :=
  {| gene := "CLOCK (AA genotype)";
     trait := "Enhanced circadian sensitivity";
     recommendation := "Maintain strict sleep schedule, minimize blue light exposure 2h before bed, prioritize sleep environment optimization" |}.

Definition actn3_xx : Insight :=
  {| gene := "ACTN3 (XX genotype)";
     trait := "Enhanced endurance capacity";
     recommendation := "Focus on aerobic base building, longer recovery periods between high-intensity sessions, emphasize mitochondrial health" |}.

Definition actn3_rr : Insight :=
  {| gene := "ACTN3 (RR genotype)";
     trait := "Enhanced power/sprint capacity";
     recommendation := "Optimize explosive training, shorter but more intense sessions, focus on neuromuscular recovery" |}.

(** [genetic_dict.get(key) == label]. *)
Definition get_is (genetic_dict : Dict) (key label : string) : bool :=
  match dict_get genetic_dict key with
  | Some v => String.eqb v label
  | None => false
  end.

(** The list [genetic_insights] after line 754; the page builds it only
    under [if genetic_dict:], that is for a non-empty dict. *)
Definition genetic_insights (genetic_dict : Dict) : list Insight :=
  match genetic_dict with
  | [] => []
  | _ :: _ =>
      let genetic_insights := [] in
      let genetic_insights :=
        if get_is genetic_dict "PER3" "long" then genetic_insights ++ [per3_long]
        else if get_is genetic_dict "PER3" "short" then genetic_insights ++ [per3_short]
        else genetic_insights in
      let genetic_insights :=
        if get_is genetic_dict "CLOCK" "AA" then genetic_insights ++ [clock_aa]
        else genetic_insights in
      let genetic_insights :=
        if get_is genetic_dict "ACTN3" "XX" then genetic_insights ++ [actn3_xx]
        else if get_is genetic_dict "ACTN3" "RR" then genetic_insights ++ [actn3_rr]
        else genetic_insights in
      genetic_insights
  end.

(** ** Specification-side definitions

    What the specification calls a well-formed history, its ordered rule
    list, its table of defaults, its banded ranges and its recognised
    genotype labels, written from its words; the theorems below compare
    them with the program. *)

(** The eight numeric metrics read by the classifier. *)
Definition numeric_metrics : list string :=
  ["hrv_night"; "resting_hr"; "temp_trend_c"; "spo2_night"; "deep_sleep_pct";
   "rem_sleep_pct"; "sleep_duration_h"; "resp_rate_night"].

(** A metric value is a number or absent ([NaN], [None]); a sleep-onset
    value is a time of day or absent. *)
Definition numeric_cell (v : pyval) : bool :=
  match v with
  | Num _ | NoneV => true
  | Time _ | Str _ => false
  end.

Definition time_cell (v : pyval) : bool :=
  match v with
  | Time _ | NoneV => true
  | Num f => is_nan f
  | Str _ => false
  end.

Definition well_formed_observation (r : Series) : bool :=
  forallb (fun c => numeric_cell (cell r c)) numeric_metrics
  && time_cell (cell r "sleep_onset_time").

Definition well_formed_history (df : DataFrame) : bool :=
  forallb well_formed_observation (rows df).

(** The ordered rules of the specification, first match wins; the tag of
    the category "optimal" is "green". *)
Definition first_match (f : Flags) : string :=
  if hrv_drop f && rhr_rise f && temp_high f && spo2_low f then "inflammation"
  else if hrv_drop f && deep_low f && sleep_late f then "circadian"
  else if hrv_drop f && rem_low f && negb (temp_high f) then "nutrition"
  else if spo2_low f && resp_high f then "airway"
  else "green".

(** The flags of the trend detector, from the cells of the history.
    [recorded] is the number an observation holds in a column, or the
    default when the value is absent; the frame must have the column for
    the latest observation to be read. *)
Definition recorded (r : Series) (column : string) (default : float) : float :=
  match cell r column with
  | Num x => if is_nan x then default else x
  | _ => default
  end.

Definition recorded_onset (r : Series) : option time :=
  match cell r "sleep_onset_time" with
  | Time t => Some t
  | _ => None
  end.

(** hrvDrop and rhrRise: with a previous observation, the relative tests
    against its values, each made only when the previous value is
    positive; without one, the absolute thresholds. *)
Definition trend_flags (prev : option Series) (hrv rhr : float) : bool * bool :=
  match prev with
  | None => ((hrv <? 40)%float, (70 <? rhr)%float)
  | Some p =>
      let prev_hrv := recorded p "hrv_night" 50 in
      let prev_rhr := recorded p "resting_hr" 60 in
      (if (0 <? prev_hrv)%float then (0.15 <? (prev_hrv - hrv) / prev_hrv)%float else false,
       if (0 <? prev_rhr)%float then (0.05 <? (rhr - prev_rhr) / prev_rhr)%float else false)
  end.

Definition latest_value (df : DataFrame) (latest : Series) (column : string)
    (default : float) : float :=
  if bool_decide (column ∈ columns df) then recorded latest column default else default.

Definition flags_of (df : DataFrame) (prev : option Series) (latest : Series) : Flags :=
  let trend := trend_flags prev (latest_value df latest "hrv_night" 50)
                 (latest_value df latest "resting_hr" 60) in
  {| hrv_drop := trend.1;
     rhr_rise := trend.2;
     temp_high := (37.0 <=? latest_value df latest "temp_trend_c" 36.5)%float;
     spo2_low := (latest_value df latest "spo2_night" 97 <=? 94)%float;
     deep_low := (latest_value df latest "deep_sleep_pct" 20 <? 17)%float;
     rem_low := (latest_value df latest "rem_sleep_pct" 20 <? 16)%float;
     sleep_short := (latest_value df latest "sleep_duration_h" 8 <? 7.0)%float;
     resp_high := (17 <=? latest_value df latest "resp_rate_night" 15)%float;
     sleep_late :=
       if bool_decide ("sleep_onset_time" ∈ columns df) then
         match recorded_onset latest with
         | Some t => match time_compare t ref_time with Gt => true | _ => false end
         | None => false
         end
       else false |}.

(** The categories of a classification that met no fault; "no_data" is
    the tag of the category "no-data". *)
Definition categories : list string :=
  ["no_data"; "inflammation"; "circadian"; "nutrition"; "airway"; "green"].

(** The defaults of the specification, by column. *)
Definition metric_defaults : list (string * pyval) :=
  [("hrv_night", Num 50); ("resting_hr", Num 60); ("temp_trend_c", Num 36.5);
   ("spo2_night", Num 97); ("deep_sleep_pct", Num 20); ("rem_sleep_pct", Num 20);
   ("sleep_duration_h", Num 8); ("resp_rate_night", Num 15);
   ("sleep_onset_time", NoneV)].

(** The reading of a column among the values the classifier holds. *)
Definition reading (column : string) (v : Readings) : option pyval :=
  if String.eqb column "hrv_night" then Some (hrv_night v)
  else if String.eqb column "resting_hr" then Some (resting_hr v)
  else if String.eqb column "temp_trend_c" then Some (temp_trend_c v)
  else if String.eqb column "spo2_night" then Some (spo2_night v)
  else if String.eqb column "deep_sleep_pct" then Some (deep_sleep_pct v)
  else if String.eqb column "rem_sleep_pct" then Some (rem_sleep_pct v)
  else if String.eqb column "sleep_duration_h" then Some (sleep_duration_h v)
  else if String.eqb column "resp_rate_night" then Some (resp_rate_night v)
  else if String.eqb column "sleep_onset_time" then Some (sleep_onset_time v)
  else None.

(** Removing a field from the latest observation, and removing a column
    from the whole frame. *)
Definition remove_field (column : string) (df : DataFrame) : DataFrame :=
  {| columns := columns df;
     rows := alter (delete column) (pred (len df)) (rows df) |}.

Definition drop_column (column : string) (df : DataFrame) : DataFrame :=
  {| columns := columns df ∖ {[column]};
     rows := delete column <$> rows df |}.

(** The claim that a previous value of zero or less forces the absolute
    fallback, as the specification words it. *)
Definition absolute_fallback_on_nonpositive_previous (df : DataFrame) : Prop :=
  forall prev p q h r,
    iloc_back df 2 = Ok prev ->
    prev_hrv_of prev = Num p -> prev_rhr_of prev = Num q ->
    hrv_night (read_latest df) = Num h -> resting_hr (read_latest df) = Num r ->
    exists hd rr,
      deviation df (Num h) (Num r) = Ok (hd, rr)
      /\ ((p <=? 0)%float = true -> hd = (h <? 40)%float)
      /\ ((q <=? 0)%float = true -> rr = (70 <? r)%float).

(** A banded range of a row: both bounds are present numbers. *)
Definition as_bound (c : pyval) : option float :=
  match c with
  | Num f => if is_nan f then None else Some f
  | _ => None
  end.

Definition bound (row : Series) (column : string) : option float :=
  match row !! column with
  | Some c => as_bound c
  | None => None
  end.

Definition range (row : Series) (low high : string) : list (float * float) :=
  match bound row low, bound row high with
  | Some l, Some h => [(l, h)]
  | _, _ => []
  end.

Definition critical_ranges (row : Series) : list (float * float) :=
  range row "red_low" "red_high" ++ range row "red_low2" "red_high2".

Definition caution_ranges (row : Series) : list (float * float) :=
  range row "yellow_low" "yellow_high" ++ range row "yellow_low2" "yellow_high2".

Definition optimal_ranges (row : Series) : list (float * float) :=
  range row "green_low" "green_high".

(** Closed interval membership. *)
Definition contains (v : float) (r : float * float) : bool :=
  (r.1 <=? v)%float && (v <=? r.2)%float.

Definition zone_of (v : float) (row : Series) : string :=
  if existsb (contains v) (critical_ranges row) then "🔴 Red"
  else if existsb (contains v) (caution_ranges row) then "🟡 Yellow"
  else if existsb (contains v) (optimal_ranges row) then "🟢 Green"
  else "⚪ Unknown".

(** A configuration row is well formed when every bound is a number or
    absent, and a secondary lower bound that holds a value comes with
    its upper-bound column. *)
Definition bound_columns : list string :=
  ["red_low"; "red_high"; "red_low2"; "red_high2"; "yellow_low"; "yellow_high";
   "yellow_low2"; "yellow_high2"; "green_low"; "green_high"].

Definition bound_cell (row : Series) (column : string) : bool :=
  match row !! column with
  | None | Some (Num _) | Some NoneV => true
  | Some (Time _) | Some (Str _) => false
  end.

Definition secondary_paired (row : Series) (low2 high2 : string) : bool :=
  match row !! low2 with
  | Some l2 => if pd_notna l2 then bool_decide (is_Some (row !! high2)) else true
  | None => true
  end.

Definition well_formed_config_row (row : Series) : bool :=
  forallb (bound_cell row) bound_columns
  && secondary_paired row "red_low2" "red_high2"
  && secondary_paired row "yellow_low2" "yellow_high2".

(** The recognised genotype labels, in the fixed order of the checks. *)
Definition recognised : list (string * string * Insight) :=
  [("PER3", "long", per3_long); ("PER3", "short", per3_short);
   ("CLOCK", "AA", clock_aa);
   ("ACTN3", "XX", actn3_xx); ("ACTN3", "RR", actn3_rr)].

(** The annotations of one gene: those of the recognised labels that the
    dict gives to it. *)
Definition annotation (genetic_dict : Dict) (g : string) : list Insight :=
  match dict_get genetic_dict g with
  | Some label =>
      (fun e => e.2) <$>
        List.filter (fun e => String.eqb g e.1.1 && String.eqb label e.1.2) recognised
  | None => []
  end.

Definition annotate (genetic_dict : Dict) : list Insight :=
  annotation genetic_dict "PER3" ++ annotation genetic_dict "CLOCK"
    ++ annotation genetic_dict "ACTN3".

(** Readings that are all numbers, with a sleep-onset time that is a
    time of day or [None]: what a well-formed observation yields. *)
Inductive numeric_readings : Readings -> Prop :=
  | numeric_readings_intro hrv rhr temp spo2 deep rem dur resp onset :
      onset = NoneV \/ (exists t, onset = Time t) ->
      numeric_readings
        {| hrv_night := Num hrv; resting_hr := Num rhr; temp_trend_c := Num temp;
           spo2_night := Num spo2; deep_sleep_pct := Num deep; rem_sleep_pct := Num rem;
           sleep_duration_h := Num dur; resp_rate_night := Num resp;
           sleep_onset_time := onset |}.

(** ** Concrete inputs *)

(** An observation that records the four metrics of the inflammation rule. *)
Definition observation (hrv rhr temp spo2 : float) : Series :=
  <["hrv_night" := Num hrv]> (<["resting_hr" := Num rhr]> (
  <["temp_trend_c" := Num temp]> (<["spo2_night" := Num spo2]> ∅))).

Definition inflammation_history : DataFrame :=
  pd_DataFrame [observation 80 55 36.6 98; observation 55 60 37.2 93].

(** Previous readings of zero, latest readings beyond both absolute thresholds. *)
Definition zero_previous_history : DataFrame :=
  pd_DataFrame [observation 0 0 36.5 97; observation 30 80 36.5 97].

(** A single observation whose sleep-onset cell holds text: the test
    against 23:30 raises, with operands whose type names are ['str'] and
    ['datetime.time'] in Python as in the model. *)
Definition text_onset_history : DataFrame :=
  pd_DataFrame [<["sleep_onset_time" := Str "late"]> (observation 50 60 36.5 97)].

(** A table whose only row has a second critical lower bound and no
    column for its upper bound. *)
Definition unpaired_config : DataFrame :=
  pd_DataFrame [<["red_low2" := Num 31]> (config_row "rem_sleep_pct" 20 25 16 19 0 15 "%")].

(** The REM-sleep row alone. *)
Definition rem_config : DataFrame :=
  pd_DataFrame [config_row2 "rem_sleep_pct" 20 25 16 19 0 15 26 30 31 100 "%"].

(** * The pages and the data template

    The code around the classifiers: the alert counts of the team
    overview, the banner, the status analysis, the metric cards and the
    readiness score of the athlete page, and the clamping of the
    generated biometric rows. *)

(** ** Alert counts of the team overview, app.py lines 384-394 *)

Definition initial_alert_counts : gmap string nat :=
  <["inflammation" := 0%nat]> (<["circadian" := 0%nat]> (<["nutrition" := 0%nat]> (
  <["airway" := 0%nat]> (<["green" := 0%nat]> (<["error" := 0%nat]> ∅))))).

(** [alert_counts[key]]. *)
Definition counts_getitem (alert_counts : gmap string nat) (key : string) : result nat :=
  match alert_counts !! key with
  | Some n => Ok n
  | None => Raise (KeyError key)
  end.

(** [alert_counts[key] += 1]: the read raises before anything is written. *)
Definition increment (alert_counts : gmap string nat) (key : string)
  : result (gmap string nat) :=
  n ← counts_getitem alert_counts key;
  Ok (<[key := S n]> alert_counts).

Section TeamOverview.

(** Lines 389-390: the genotype dict and the history selected for an
    athlete, or the exception raised while selecting them. *)
Variable load : string -> result (Dict * DataFrame).

(** The body of the loop, lines 387-394. *)
Definition count_athlete (alert_counts : gmap string nat) (athlete_id : string)
  : result (gmap string nat) :=
  match (loaded ← load athlete_id;
         let alert := generate_alert athlete_id loaded.2 loaded.1 in
         increment alert_counts (type alert)) with
  | Ok counts => Ok counts
  | Raise _ => increment alert_counts "error"
  end.

(** The loop over the athletes of [latest_data], lines 386-394. *)
Fixpoint count_alerts (alert_counts : gmap string nat) (athlete_ids : list string)
  : result (gmap string nat) :=
  match athlete_ids with
  | [] => Ok alert_counts
  | athlete_id :: rest =>
      counts ← count_athlete alert_counts athlete_id;
      count_alerts counts rest
  end.

(** The key under which an athlete is counted. *)
Definition count_keys : list string :=
  ["inflammation"; "circadian"; "nutrition"; "airway"; "green"; "error"].

Definition bucket (athlete_id : string) : string :=
  match load athlete_id with
  | Ok loaded =>
      let t := type (generate_alert athlete_id loaded.2 loaded.1) in
      if existsb (String.eqb t) count_keys then t else "error"
  | Raise _ => "error"
  end.

End TeamOverview.

(** [high_risk] and [medium_risk], lines 435 and 445. *)
Definition high_risk (alert_counts : gmap string nat) : result nat :=
  a ← counts_getitem alert_counts "inflammation";
  b ← counts_getitem alert_counts "airway";
  Ok (a + b)%nat.

Definition medium_risk (alert_counts : gmap string nat) : result nat :=
  a ← counts_getitem alert_counts "circadian";
  b ← counts_getitem alert_counts "nutrition";
  Ok (a + b)%nat.

(** How many elements of a list are the key. *)
Definition tally (key : string) (l : list string) : nat :=
  length (List.filter (String.eqb key) l).

(** The dict of counts keeps its six keys. *)
Definition six_keys (alert_counts : gmap string nat) : Prop :=
  forall k, is_Some (alert_counts !! k) <-> k ∈ count_keys.

(** ** The alert on the athlete page, app.py lines 589-594 and 700-711 *)

Inductive st_call :=
  | st_error (body : string)
  | st_warning (body : string)
  | st_success (body : string)
  | st_markdown (body : string).

Definition newline : string := String "010"%char "".

(** [x in [a, b]] on strings. *)
Definition str_in (x : string) (l : list string) : bool := existsb (String.eqb x) l.

(** The banner under the header, lines 589-594. *)
Definition alert_banner (alert : Alert) : st_call :=
  if str_in (type alert) ["inflammation"; "airway"] then
    st_error ("**" +:+ title alert +:+ "**" +:+ newline +:+ newline +:+ "**Cause**: "
                +:+ cause alert +:+ newline +:+ newline +:+ "**Recommendation**: "
                +:+ rec alert)
  else if str_in (type alert) ["circadian"; "nutrition"] then
    st_warning ("**" +:+ title alert +:+ "**" +:+ newline +:+ newline +:+ "**Cause**: "
                  +:+ cause alert +:+ newline +:+ newline +:+ "**Recommendation**: "
                  +:+ rec alert)
  else
    st_success ("**" +:+ title alert +:+ "**" +:+ newline +:+ newline +:+ rec alert).

(** The status analysis of the third tab, lines 700-711. *)
Definition status_analysis (alert : Alert) : list st_call :=
  if str_in (type alert) ["inflammation"; "airway"] then
    [st_error ("**" +:+ title alert +:+ "**");
     st_markdown ("**Root Cause:** " +:+ cause alert);
     st_markdown ("**Action Plan:** " +:+ rec alert)]
  else if str_in (type alert) ["circadian"; "nutrition"] then
    [st_warning ("**" +:+ title alert +:+ "**");
     st_markdown ("**Contributing Factors:** " +:+ cause alert);
     st_markdown ("**Optimization Strategy:** " +:+ rec alert)]
  else
    [st_success ("**" +:+ title alert +:+ "**");
     st_markdown ("**Status:** " +:+ cause alert);
     st_markdown ("**Maintenance Plan:** " +:+ rec alert)].

(** ** The metric cards, app.py lines 603-621 *)

(** [metrics_map]: display name, column and unit. *)
Definition metrics_map : list (string * (string * string)) :=
  [("HRV (Night)", ("hrv_night", "ms"));
   ("Resting HR", ("resting_hr", "bpm"));
   ("SpO₂ (Night)", ("spo2_night", "%"));
   ("Respiratory Rate", ("resp_rate_night", "/min"));
   ("Deep Sleep %", ("deep_sleep_pct", "%"));
   ("REM Sleep %", ("rem_sleep_pct", "%"));
   ("Sleep Duration", ("sleep_duration_h", "h"));
   ("Temperature", ("temp_trend_c", "°C"));
   ("Training Load", ("training_load_pct", "%"))].

Definition is_ascii_lower (c : ascii) : bool :=
  (97 <=? nat_of_ascii c)%nat && (nat_of_ascii c <=? 122)%nat.

Definition is_ascii_upper (c : ascii) : bool :=
  (65 <=? nat_of_ascii c)%nat && (nat_of_ascii c <=? 90)%nat.

Definition ascii_lower (c : ascii) : ascii :=
  if is_ascii_upper c then ascii_of_nat (nat_of_ascii c + 32) else c.

Definition ascii_upper (c : ascii) : ascii :=
  if is_ascii_lower c then ascii_of_nat (nat_of_ascii c - 32) else c.

(** [s.replace(old, new)] for one-character [old] and [new]. *)
Fixpoint str_replace_char (old new : ascii) (s : string) : string :=
  match s with
  | EmptyString => EmptyString
  | String c rest =>
      String (if Ascii.eqb c old then new else c) (str_replace_char old new rest)
  end.

(** [s.title()] on an ASCII string: a letter that follows a letter is
    lowered, any other letter is raised, the other characters are kept. *)
Fixpoint title_from (previous_is_cased : bool) (s : string) : string :=
  match s with
  | EmptyString => EmptyString
  | String c rest =>
      if is_ascii_lower c || is_ascii_upper c
      then String (if previous_is_cased then ascii_lower c else ascii_upper c)
                  (title_from true rest)
      else String c (title_from false rest)
  end.

Definition str_title (s : string) : string := title_from false s.

(** Lines 617-621: the value and the status of one card. *)
Definition metric_card (latest : Series) (key : string) (metrics_config : DataFrame)
  : pyval * string :=
  let val := safe_get_value (pd_DataFrame [latest]) key (Num 0) in
  let metric_name_formatted := str_title (str_replace_char "_" " " key) in
  (val, get_zone_status val metric_name_formatted metrics_config).

(** ** The readiness score, app.py lines 823-830 *)

Definition hrv_score (recent_hrv : float) : float :=
  if (45 <? recent_hrv)%float then 1%float
  else if (35 <? recent_hrv)%float then 0.5%float else 0%float.

Definition rhr_score (recent_rhr : float) : float :=
  if (recent_rhr <? 65)%float then 1%float
  else if (recent_rhr <? 75)%float then 0.5%float else 0%float.

Definition sleep_score (recent_sleep : float) : float :=
  if (7.5 <? recent_sleep)%float then 1%float
  else if (6.5 <? recent_sleep)%float then 0.5%float else 0%float.

Definition overall_score (recent_hrv recent_rhr recent_sleep : float) : float :=
  ((hrv_score recent_hrv + rhr_score recent_rhr + sleep_score recent_sleep) / 3 * 100)%float.

Definition score_color (overall_score : float) : string :=
  if (75 <? overall_score)%float then "#28a745"
  else if (50 <? overall_score)%float then "#ffc107" else "#dc3545".

Definition score_emoji (overall_score : float) : string :=
  if (75 <? overall_score)%float then "🟢"
  else if (50 <? overall_score)%float then "🟡" else "🔴".

(** The points of one indicator, in halves: 2 when full, 1 when half. *)
Definition half_points (full half : bool) : nat :=
  if full then 2 else if half then 1 else 0.

Definition readiness_points (recent_hrv recent_rhr recent_sleep : float) : nat :=
  half_points (45 <? recent_hrv)%float (35 <? recent_hrv)%float
  + half_points (recent_rhr <? 65)%float (recent_rhr <? 75)%float
  + half_points (7.5 <? recent_sleep)%float (6.5 <? recent_sleep)%float.

(** ** Clamping of the generated rows, templateGenerator.py lines 205-218 *)

(** [min(a, b)] and [max(a, b)] of Python on two numbers: the first
    argument is kept unless the second is strictly beyond it. *)
Definition py_min (a b : float) : float := if (b <? a)%float then b else a.
Definition py_max (a b : float) : float := if (a <? b)%float then b else a.

(** The clamped fields of a generated row, from the values rounded to
    one decimal. *)
Definition clamped_fields (rhr hrv spo2 deep rem light duration rr temp load : float)
  : list (string * float) :=
  [("resting_hr", py_max 40 (py_min 100 rhr));
   ("hrv_night", py_max 50 (py_min 200 hrv));
   ("spo2_night", py_max 85 (py_min 100 spo2));
   ("deep_sleep_pct", py_max 5 (py_min 40 deep));
   ("rem_sleep_pct", py_max 10 (py_min 35 rem));
   ("light_sleep_pct", py_max 30 (py_min 70 light));
   ("sleep_duration_h", py_max 4 (py_min 12 duration));
   ("resp_rate_night", py_max 8 (py_min 30 rr));
   ("temp_trend_c", py_max 35.0 (py_min 40.0 temp));
   ("training_load_pct", py_max 0 (py_min 100 load))].

(** The bounds written in the template, by column. *)
Definition field_bounds : list (string * (float * float)) :=
  [("resting_hr", (40, 100)); ("hrv_night", (50, 200)); ("spo2_night", (85, 100));
   ("deep_sleep_pct", (5, 40)); ("rem_sleep_pct", (10, 35));
   ("light_sleep_pct", (30, 70)); ("sleep_duration_h", (4, 12));
   ("resp_rate_night", (8, 30)); ("temp_trend_c", (35.0, 40.0));
   ("training_load_pct", (0, 100))]%float.

(** ** Further concrete inputs *)

(** Writing a field of the latest observation,
    [df.loc[df.index[-1], column] = value]: the frame gets the column when
    it lacks it (the other rows then read as [NaN] there). *)
Definition set_field (column : string) (value : pyval) (df : DataFrame) : DataFrame :=
  {| columns := columns df ∪ {[column]};
     rows := alter (insert column value) (pred (len df)) (rows df) |}.

(** Two nights of eight hours around the inflammation example. *)
Definition rested_history : DataFrame :=
  pd_DataFrame [<["sleep_duration_h" := Num 8]> (observation 80 55 36.6 98);
                <["sleep_duration_h" := Num 8]> (observation 55 60 37.2 93)].

(** A late night with little deep sleep. *)
Definition late_night_history : DataFrame :=
  pd_DataFrame [<["deep_sleep_pct" := Num 12]> (
                <["sleep_onset_time" := Time (dt_time 23 45)]> (observation 35 60 36.5 97))].

(** * Properties *)

(** ** Frames and [safe_get_value] *)

Lemma nonempty_last (df : DataFrame) :
  len df <> 0%nat -> exists init r, rows df = init ++ [r].
Proof.
  unfold len. destruct (rows df) as [|x l] using rev_ind; [done|].
  intros _. by exists l, x.
Qed.

Lemma iloc_back_last (df : DataFrame) init r :
  rows df = init ++ [r] -> iloc_back df 1 = Ok r.
Proof.
  intros E. unfold iloc_back, len. rewrite E, length_app. cbn [length].
  destruct (Nat.leb_spec 1 (length init + 1)); [|lia].
  by rewrite list_lookup_middle by lia.
Qed.

Lemma iloc_back_previous (df : DataFrame) init prev latest :
  rows df = init ++ [prev; latest] -> iloc_back df 2 = Ok prev.
Proof.
  intros E. unfold iloc_back, len. rewrite E, length_app. cbn [length].
  destruct (Nat.leb_spec 2 (length init + 2)); [|lia].
  by rewrite list_lookup_middle by lia.
Qed.

(** What [safe_get_value] returns on a frame with a latest row. *)
Lemma safe_get_value_last (df : DataFrame) init r column default :
  rows df = init ++ [r] ->
  safe_get_value df column default =
    if bool_decide (column ∈ columns df) && pd_notna (cell r column)
    then cell r column else default.
Proof.
  intros E. unfold safe_get_value, safe_get_value_try.
  case_bool_decide; [|done]. simpl.
  rewrite (iloc_back_last df init r E).
  destruct (Nat.ltb_spec 0 (len df)) as [_|Hlen];
    [|unfold len in Hlen; rewrite E, length_app in Hlen; simpl in Hlen; lia].
  simpl. reflexivity.
Qed.

Lemma cell_fill cols (r : Series) column : cell (fill cols r) column = cell r column.
Proof.
  unfold cell, fill. rewrite lookup_union, lookup_gset_to_gmap.
  by destruct (r !! column); case_guard.
Qed.

(** The one-row frame [pd.DataFrame([prev])]: a missing cell gives the default. *)
Lemma safe_get_value_single (prev : Series) column default :
  safe_get_value (pd_DataFrame [prev]) column default =
    if pd_notna (cell prev column) then cell prev column else default.
Proof.
  rewrite (safe_get_value_last _ [] (fill (⋃ (dom <$> [prev])) prev)) by done.
  rewrite cell_fill. simpl.
  case_bool_decide as Hin; [done|]. simpl.
  unfold cell. destruct (prev !! column) eqn:E; [|done].
  exfalso. apply Hin. apply elem_of_union_l, elem_of_dom. eauto.
Qed.

(** ** Readings of a well-formed history *)

Lemma numeric_reading (df : DataFrame) init r column d :
  rows df = init ++ [r] -> numeric_cell (cell r column) = true ->
  exists x, safe_get_value df column (Num d) = Num x.
Proof.
  intros E Hc. rewrite (safe_get_value_last df init r) by done.
  destruct (cell r column) as [x| | |]; try done.
  - destruct (bool_decide _ && _); eauto.
  - unfold pd_notna. simpl. rewrite andb_false_r. eauto.
Qed.

Lemma onset_reading (df : DataFrame) init r column :
  rows df = init ++ [r] -> time_cell (cell r column) = true ->
  safe_get_value df column NoneV = NoneV
  \/ exists t, safe_get_value df column NoneV = Time t.
Proof.
  intros E Hc. rewrite (safe_get_value_last df init r) by done.
  destruct (cell r column) as [x|t| |]; try done; unfold pd_notna; simpl.
  - simpl in Hc. rewrite Hc, andb_false_r. by left.
  - destruct (bool_decide _); simpl; eauto.
  - destruct (bool_decide _); simpl; eauto.
Qed.

Lemma previous_reading (prev : Series) column d :
  numeric_cell (cell prev column) = true ->
  exists x, safe_get_value (pd_DataFrame [prev]) column (Num d) = Num x.
Proof.
  intros Hc. rewrite safe_get_value_single.
  destruct (cell prev column) as [x| | |]; try done.
  - destruct (pd_notna _); eauto.
  - unfold pd_notna. simpl. eauto.
Qed.

(** Membership in a literal list. *)
Ltac in_list := apply list_elem_of_In; simpl; tauto.

Lemma well_formed_observation_cells (r : Series) :
  well_formed_observation r = true ->
  (forall c, c ∈ numeric_metrics -> numeric_cell (cell r c) = true)
  /\ time_cell (cell r "sleep_onset_time") = true.
Proof.
  unfold well_formed_observation. intros [Hn Ht]%andb_prop. split; [|done].
  intros c Hc. rewrite forallb_forall in Hn. apply Hn. by apply list_elem_of_In.
Qed.

Lemma well_formed_readings (df : DataFrame) init r :
  rows df = init ++ [r] -> well_formed_observation r = true ->
  numeric_readings (read_latest df).
Proof.
  intros E [Hn Ht]%well_formed_observation_cells. unfold read_latest.
  assert (Hm : forall c d, c ∈ numeric_metrics ->
            exists x, safe_get_value df c (Num d) = Num x)
    by (intros; eapply numeric_reading; eauto).
  destruct (Hm "hrv_night" 50%float) as [? ->]; [in_list|].
  destruct (Hm "resting_hr" 60%float) as [? ->]; [in_list|].
  destruct (Hm "temp_trend_c" 36.5%float) as [? ->]; [in_list|].
  destruct (Hm "spo2_night" 97%float) as [? ->]; [in_list|].
  destruct (Hm "deep_sleep_pct" 20%float) as [? ->]; [in_list|].
  destruct (Hm "rem_sleep_pct" 20%float) as [? ->]; [in_list|].
  destruct (Hm "sleep_duration_h" 8%float) as [? ->]; [in_list|].
  destruct (Hm "resp_rate_night" 15%float) as [? ->]; [in_list|].
  constructor. eapply onset_reading; eauto.
Qed.

Lemma well_formed_history_rows (df : DataFrame) r :
  well_formed_history df = true -> r ∈ rows df -> well_formed_observation r = true.
Proof.
  unfold well_formed_history. rewrite forallb_forall. intros H Hr.
  by apply H, list_elem_of_In.
Qed.

(** ** The deviation logic *)

(** One observation: the absolute thresholds. *)
Lemma deviation_single (df : DataFrame) h r :
  len df = 1%nat ->
  deviation df (Num h) (Num r) = Ok ((h <? 40)%float, (70 <? r)%float).
Proof. intros E. unfold deviation. by rewrite E. Qed.

(** Two observations or more: the relative tests, each guarded by the
    sign of the previous value. *)
Lemma deviation_previous (df : DataFrame) init prev latest p q h r :
  rows df = init ++ [prev; latest] ->
  prev_hrv_of prev = Num p -> prev_rhr_of prev = Num q ->
  deviation df (Num h) (Num r) =
    Ok (if (0 <? p)%float then (0.15 <? (p - h) / p)%float else false,
        if (0 <? q)%float then (0.05 <? (r - q) / q)%float else false).
Proof.
  intros E Hp Hq. unfold deviation.
  destruct (Nat.leb_spec 2 (len df)) as [_|Hlen];
    [|unfold len in Hlen; rewrite E, length_app in Hlen; simpl in Hlen; lia].
  rewrite (iloc_back_previous df init prev latest E). simpl.
  rewrite Hp, Hq. simpl.
  by destruct (0 <? p)%float, (0 <? q)%float.
Qed.

Lemma deviation_total (df : DataFrame) h r :
  well_formed_history df = true -> len df <> 0%nat ->
  exists p, deviation df (Num h) (Num r) = Ok p.
Proof.
  intros Hwf Hlen. destruct (nonempty_last df Hlen) as (init & latest & E).
  destruct init as [|prev init _] using rev_ind.
  - rewrite deviation_single; [eauto|]. unfold len. by rewrite E.
  - rewrite <- app_assoc in E. simpl in E.
    assert (Hprev : well_formed_observation prev = true).
    { apply (well_formed_history_rows df); [done|]. rewrite E. set_solver. }
    apply well_formed_observation_cells in Hprev as [Hn _].
    destruct (previous_reading prev "hrv_night" 50%float) as [p Hp]; [apply Hn; in_list|].
    destruct (previous_reading prev "resting_hr" 60%float) as [q Hq]; [apply Hn; in_list|].
    erewrite deviation_previous; eauto.
Qed.

(** ** Flags and rules on numeric readings *)

Lemma compute_flags_numeric (df : DataFrame) hrv rhr temp spo2 deep rem dur resp onset hd rr :
  deviation df (Num hrv) (Num rhr) = Ok (hd, rr) ->
  onset = NoneV \/ (exists t, onset = Time t) ->
  compute_flags df
    {| hrv_night := Num hrv; resting_hr := Num rhr; temp_trend_c := Num temp;
       spo2_night := Num spo2; deep_sleep_pct := Num deep; rem_sleep_pct := Num rem;
       sleep_duration_h := Num dur; resp_rate_night := Num resp;
       sleep_onset_time := onset |} =
  Ok {| hrv_drop := hd; rhr_rise := rr;
        temp_high := (37.0 <=? temp)%float; spo2_low := (spo2 <=? 94)%float;
        deep_low := (deep <? 17)%float; rem_low := (rem <? 16)%float;
        sleep_short := (dur <? 7.0)%float; resp_high := (17 <=? resp)%float;
        sleep_late := match onset with
                      | Time t => ord_cmp OpGt (time_compare t ref_time)
                      | _ => false
                      end |}.
Proof.
  intros Hd Ho. unfold compute_flags. simpl. rewrite Hd. simpl.
  by destruct Ho as [->|[t ->]].
Qed.

Lemma alert_rules_numeric (v : Readings) (f : Flags) :
  numeric_readings v ->
  exists alert, alert_rules v f = Ok alert /\ type alert = first_match f.
Proof.
  intros Hv. destruct Hv as [hrv rhr temp spo2 deep rem dur resp onset Ho].
  unfold alert_rules, first_match. simpl.
  destruct (hrv_drop f && rhr_rise f && temp_high f && spo2_low f); [by eexists|].
  destruct (hrv_drop f && deep_low f && sleep_late f).
  { destruct Ho as [->|[t ->]]; by eexists. }
  destruct (hrv_drop f && rem_low f && negb (temp_high f)); [by eexists|].
  destruct (spo2_low f && resp_high f); by eexists.
Qed.

Lemma first_match_category (f : Flags) : first_match f ∈ categories.
Proof.
  unfold first_match, categories.
  repeat match goal with |- context [if ?b then _ else _] => destruct b end;
    in_list.
Qed.

(** A well-formed, non-empty history is classified without a fault, by
    the first matching rule on the flags of [compute_flags]. *)
Lemma generate_alert_well_formed athlete_id (df : DataFrame) genetic_dict :
  well_formed_history df = true -> len df <> 0%nat ->
  exists f alert,
    compute_flags df (read_latest df) = Ok f
    /\ generate_alert_try athlete_id df genetic_dict = Ok alert
    /\ type alert = first_match f.
Proof.
  intros Hwf Hlen. destruct (nonempty_last df Hlen) as (init & latest & E).
  assert (Hv : numeric_readings (read_latest df)).
  { apply (well_formed_readings df init latest E).
    apply (well_formed_history_rows df); [done|]. rewrite E. set_solver. }
  assert (exists f, compute_flags df (read_latest df) = Ok f) as [f Hf].
  { destruct Hv as [hrv rhr temp spo2 deep rem dur resp onset Ho].
    destruct (deviation_total df hrv rhr Hwf Hlen) as [[hd rr] Hd].
    erewrite compute_flags_numeric; eauto. }
  destruct (alert_rules_numeric _ f Hv) as (alert & Ha & Ht).
  exists f, alert. split; [done|]. split; [|done].
  unfold generate_alert_try.
  destruct (Nat.eqb_spec (len df) 0); [done|].
  rewrite (iloc_back_last df init latest E). simpl. rewrite Hf. simpl. done.
Qed.

(** * The alert classifier *)

(** ** The flags of a well-formed history, from its cells *)

Lemma safe_get_value_recorded (df : DataFrame) init r column d :
  rows df = init ++ [r] -> numeric_cell (cell r column) = true ->
  safe_get_value df column (Num d) = Num (latest_value df r column d).
Proof.
  intros E Hc. rewrite (safe_get_value_last df init r) by done.
  unfold latest_value, recorded, pd_notna.
  case_bool_decide; simpl; [|done].
  destruct (cell r column) as [x| | |]; try done. simpl.
  by destruct (is_nan x).
Qed.

Lemma safe_get_value_recorded_onset (df : DataFrame) init r :
  rows df = init ++ [r] -> time_cell (cell r "sleep_onset_time") = true ->
  safe_get_value df "sleep_onset_time" NoneV =
    if bool_decide ("sleep_onset_time" ∈ columns df) then
      match recorded_onset r with
      | Some t => Time t
      | None => NoneV
      end
    else NoneV.
Proof.
  intros E Hc. rewrite (safe_get_value_last df init r) by done.
  unfold recorded_onset, pd_notna.
  case_bool_decide; simpl; [|done].
  destruct (cell r "sleep_onset_time") as [x| | |]; try done.
  simpl in *. by rewrite Hc.
Qed.

Lemma previous_recorded (prev : Series) column d :
  numeric_cell (cell prev column) = true ->
  safe_get_value (pd_DataFrame [prev]) column (Num d) = Num (recorded prev column d).
Proof.
  intros Hc. rewrite safe_get_value_single. unfold recorded, pd_notna.
  destruct (cell prev column) as [x| | |]; try done. simpl.
  by destruct (is_nan x).
Qed.

Lemma deviation_trend_flags (df : DataFrame) init latest hrv rhr :
  well_formed_history df = true -> rows df = init ++ [latest] ->
  deviation df (Num hrv) (Num rhr) = Ok (trend_flags (last init) hrv rhr).
Proof.
  intros Hwf E. destruct init as [|prev init _] using rev_ind.
  - rewrite deviation_single; [done|]. unfold len. by rewrite E.
  - rewrite last_snoc. rewrite <- app_assoc in E. simpl in E.
    assert (Hprev : well_formed_observation prev = true).
    { apply (well_formed_history_rows df); [done|]. rewrite E. set_solver. }
    apply well_formed_observation_cells in Hprev as [Hn _].
    rewrite (deviation_previous df init prev latest
               (recorded prev "hrv_night" 50) (recorded prev "resting_hr" 60)); [done..| |].
    + unfold prev_hrv_of. apply previous_recorded, Hn. in_list.
    + unfold prev_rhr_of. apply previous_recorded, Hn. in_list.
Qed.

(** On a well-formed history the program computes the flags of the
    specification. *)
Lemma compute_flags_of (df : DataFrame) init latest :
  well_formed_history df = true -> rows df = init ++ [latest] ->
  compute_flags df (read_latest df) = Ok (flags_of df (last init) latest).
Proof.
  intros Hwf E.
  assert (Hl : well_formed_observation latest = true).
  { apply (well_formed_history_rows df); [done|]. rewrite E. set_solver. }
  apply well_formed_observation_cells in Hl as [Hn Ht].
  unfold read_latest.
  rewrite !(safe_get_value_recorded df init latest) by (try done; apply Hn; in_list).
  rewrite (safe_get_value_recorded_onset df init latest E Ht).
  erewrite compute_flags_numeric.
  - unfold flags_of. f_equal. f_equal.
    case_bool_decide; [|done]. by destruct (recorded_onset latest).
  - rewrite (deviation_trend_flags df init latest) by done.
    by destruct (trend_flags _ _ _).
  - case_bool_decide; [|by left]. destruct (recorded_onset latest); eauto.
Qed.

(** C1. For every well-formed history and every genotype dict,
    [generate_alert] meets no fault and returns one alert whose category
    is chosen by first-match-wins evaluation: an empty history gives
    no-data ("no_data"); otherwise, on the flags of the latest
    observation (hrvDrop and rhrRise from the previous observation when
    there is one, the other flags from the latest values with their
    defaults), hrvDrop and rhrRise and tempHigh and spo2Low give
    inflammation, else hrvDrop and deepSleepLow and sleepLate give
    circadian, else hrvDrop and remSleepLow and not tempHigh give
    nutrition, else spo2Low and respRateHigh give airway, else optimal
    ("green").  The category is always one of these six. *)
Theorem generate_alert_first_match athlete_id (df : DataFrame) genetic_dict :
  well_formed_history df = true ->
  (exists alert, generate_alert_try athlete_id df genetic_dict = Ok alert
                 /\ generate_alert athlete_id df genetic_dict = alert)
  /\ (len df = 0%nat -> generate_alert athlete_id df genetic_dict = no_data_alert)
  /\ (len df <> 0%nat ->
      exists f, compute_flags df (read_latest df) = Ok f
                /\ type (generate_alert athlete_id df genetic_dict) = first_match f)
  /\ (forall init latest,
        rows df = init ++ [latest] ->
        compute_flags df (read_latest df) = Ok (flags_of df (last init) latest)
        /\ type (generate_alert athlete_id df genetic_dict)
           = first_match (flags_of df (last init) latest))
  /\ type (generate_alert athlete_id df genetic_dict) ∈ categories.
Proof.
  intros Hwf. unfold generate_alert.
  destruct (decide (len df = 0%nat)) as [Hlen|Hlen].
  - assert (Ht : generate_alert_try athlete_id df genetic_dict = Ok no_data_alert)
      by (unfold generate_alert_try; by rewrite Hlen).
    rewrite Ht. split; [by eexists|]. split; [done|]. split; [done|].
    split; [|in_list].
    intros init latest E. unfold len in Hlen. rewrite E, length_app in Hlen.
    simpl in Hlen. lia.
  - destruct (generate_alert_well_formed athlete_id df genetic_dict Hwf Hlen)
      as (f & alert & Hf & Ht & Hty).
    rewrite Ht. split; [by eexists|]. split; [done|]. split; [|split].
    + intros _. by exists f.
    + intros init latest E.
      pose proof (compute_flags_of df init latest Hwf E) as Hflags.
      split; [done|]. rewrite Hflags in Hf. injection Hf as <-. done.
    + rewrite Hty. apply first_match_category.
Qed.

Lemma generate_alert_first_match_witness :
  well_formed_history inflammation_history = true
  /\ type (generate_alert "A-01" inflammation_history [("PER3", "long")]) ∈ categories
  /\ type (generate_alert "A-01" inflammation_history [("PER3", "long")]) = "inflammation".
Proof.
  split; [vm_compute; reflexivity|].
  destruct (generate_alert_first_match "A-01" inflammation_history [("PER3", "long")])
    as (_ & _ & _ & Hflags & Hcat); [vm_compute; reflexivity|].
  split; [exact Hcat|].
  destruct (Hflags [fill (columns inflammation_history) (observation 80 55 36.6 98)]
              (fill (columns inflammation_history) (observation 55 60 37.2 93)))
    as [_ ->]; vm_compute; reflexivity.
Defined.



(** C7. The two-observation history
    [{hrv 80, rhr 55, temp 36.6, spo2 98}, {hrv 55, rhr 60, temp 37.2, spo2 93}]
    is classified as inflammation: the relative HRV drop (80-55)/80 =
    0.3125 exceeds 0.15, the relative RHR rise (60-55)/55 exceeds 0.05,
    37.2 is at least 37.0 and 93 is at most 94. *)
Theorem inflammation_example athlete_id genetic_dict :
  generate_alert athlete_id inflammation_history genetic_dict =
    {| type := "inflammation";
       title := "⚠️ Inflammation/Illness Risk";
       cause := "HRV↓(55) + RHR↑(60) + Temp↑(37.2) + SpO₂↓(93.0)";
       rec := "Prioritize rest, hydration, anti-inflammatory nutrition. Monitor temperature closely." |}
  /\ deviation inflammation_history (Num 55) (Num 60) = Ok (true, true)
  /\ ((80 - 55) / 80 = 0.3125)%float
  /\ (0.15 <? (80 - 55) / 80)%float = true
  /\ (0.05 <? (60 - 55) / 55)%float = true
  /\ (37.0 <=? 37.2)%float = true
  /\ (93 <=? 94)%float = true.
Proof. repeat split; vm_compute; reflexivity. Qed.

(** C10. The alert does not depend on the genotype dict: for every
    athlete identifier and history, any two dicts (the empty one
    included) give the same alert record. *)
Theorem generate_alert_ignores_genotype athlete_id (df : DataFrame)
    (genetic_dict genetic_dict' : Dict) :
  generate_alert athlete_id df genetic_dict = generate_alert athlete_id df genetic_dict'
  /\ generate_alert athlete_id df genetic_dict = generate_alert athlete_id df [].
Proof. unfold generate_alert, generate_alert_try. split; reflexivity. Qed.

(** * The deviation logic and a previous value of zero or less *)

(** A float that is zero or less is not positive. *)
Lemma nonpositive_not_positive (p : float) :
  (p <=? 0)%float = true -> (0 <? p)%float = false.
Proof.
  rewrite leb_spec, ltb_spec.
  change (Prim2SF 0) with (S754_zero false).
  unfold SFleb, SFltb.
  by destruct (Prim2SF p) as [[]|[]| |[] m e].
Qed.

(** C2, counterexample.  With previous readings of zero and latest
    readings of 30 (HRV) and 80 (RHR), both flags are false although
    30 < 40 and 80 > 70: the absolute fallback is not applied. *)
Lemma zero_previous_counterexample :
  ~ absolute_fallback_on_nonpositive_previous zero_previous_history.
Proof.
  intros H.
  destruct (H (fill (columns zero_previous_history) (observation 0 0 36.5 97))
              0%float 0%float 30%float 80%float)
    as (hd & rr & Hd & Hh & _); try (vm_compute; reflexivity).
  vm_compute in Hd. injection Hd as <- <-.
  discriminate (Hh eq_refl).
Qed.

(** C2, amended.  For every history with at least two observations, a
    previous HRV of zero or less makes hrvDrop false, and a previous
    resting heart rate of zero or less makes rhrRise false, whatever the
    latest values are; the relative tests apply when the previous value
    is positive. *)
Theorem nonpositive_previous_clears_flag (df : DataFrame) init prev latest p q h r :
  rows df = init ++ [prev; latest] ->
  prev_hrv_of prev = Num p -> prev_rhr_of prev = Num q ->
  exists hd rr,
    deviation df (Num h) (Num r) = Ok (hd, rr)
    /\ ((p <=? 0)%float = true -> hd = false)
    /\ ((q <=? 0)%float = true -> rr = false)
    /\ ((0 <? p)%float = true -> hd = (0.15 <? (p - h) / p)%float)
    /\ ((0 <? q)%float = true -> rr = (0.05 <? (r - q) / q)%float).
Proof.
  intros E Hp Hq. eexists _, _.
  split; [by apply (deviation_previous df init prev latest p q)|].
  split; [by intros ->%nonpositive_not_positive|].
  split; [by intros ->%nonpositive_not_positive|].
  split; by intros ->.
Qed.

Lemma nonpositive_previous_clears_flag_witness :
  rows zero_previous_history =
    [] ++ [fill (columns zero_previous_history) (observation 0 0 36.5 97);
           fill (columns zero_previous_history) (observation 30 80 36.5 97)]
  /\ prev_hrv_of (fill (columns zero_previous_history) (observation 0 0 36.5 97)) = Num 0
  /\ prev_rhr_of (fill (columns zero_previous_history) (observation 0 0 36.5 97)) = Num 0
  /\ exists hd rr,
      deviation zero_previous_history (Num 30) (Num 80) = Ok (hd, rr)
      /\ ((0 <=? 0)%float = true -> hd = false)
      /\ ((0 <=? 0)%float = true -> rr = false)
      /\ ((0 <? 0)%float = true -> hd = (0.15 <? (0 - 30) / 0)%float)
      /\ ((0 <? 0)%float = true -> rr = (0.05 <? (80 - 0) / 0)%float).
Proof.
  split; [vm_compute; reflexivity|].
  split; [vm_compute; reflexivity|].
  split; [vm_compute; reflexivity|].
  apply (nonpositive_previous_clears_flag zero_previous_history []
           (fill (columns zero_previous_history) (observation 0 0 36.5 97))
           (fill (columns zero_previous_history) (observation 30 80 36.5 97)));
    vm_compute; reflexivity.
Defined.

(** * Faults *)

Lemma substring_prefix_length (n : nat) (s : string) :
  String.length (substring 0 n s) <= n.
Proof.
  revert s. induction n as [|n IH]; intros [|c s]; simpl; try lia.
  specialize (IH s). lia.
Qed.

Lemma substring_prefix (n : nat) (s : string) :
  String.prefix (substring 0 n s) s = true.
Proof.
  revert s. induction n as [|n IH]; intros [|c s]; simpl; try done.
  destruct (ascii_dec c c); [apply IH|done].
Qed.

(** C4. A fault raised while an alert is evaluated is caught: the result
    is the alert of category "error" whose cause embeds the first 50
    characters at most of the description of the fault, and such a fault
    only arises on a non-empty history; a fault inside the zone
    classifier gives the status "Error".  Both functions return a value
    on every input. *)
Theorem faults_are_reported :
  (forall athlete_id df genetic_dict e,
      generate_alert_try athlete_id df genetic_dict = Raise e ->
      generate_alert athlete_id df genetic_dict =
        {| type := "error";
           title := "❌ Analysis Error";
           cause := "Error processing data: " +:+ substring 0 50 (str_exn e) +:+ "...";
           rec := "Check data quality and try refreshing the dashboard." |}
      /\ String.length (substring 0 50 (str_exn e)) <= 50
      /\ String.prefix (substring 0 50 (str_exn e)) (str_exn e) = true
      /\ len df <> 0%nat)
  /\ (forall value metric_name thresholds e,
      get_zone_status_try value metric_name thresholds = Raise e ->
      get_zone_status value metric_name thresholds = "⚪ Error").
Proof.
  split.
  - intros athlete_id df genetic_dict e He. unfold generate_alert. rewrite He.
    split; [done|]. split; [apply substring_prefix_length|].
    split; [apply substring_prefix|].
    intros Hlen. unfold generate_alert_try in He. by rewrite Hlen in He.
  - intros value metric_name thresholds e He. unfold get_zone_status. by rewrite He.
Qed.

Lemma faults_are_reported_witness :
  generate_alert_try "A-01" text_onset_history [] =
    Raise (TypeError "'>' not supported between instances of 'str' and 'datetime.time'")
  /\ cause (generate_alert "A-01" text_onset_history []) =
       "Error processing data: '>' not supported between instances of 'str' and '..."
  /\ get_zone_status_try (Num 28) "rem_sleep_pct" unpaired_config = Raise (KeyError "red_high2")
  /\ get_zone_status (Num 28) "rem_sleep_pct" unpaired_config = "⚪ Error".
Proof.
  split; [vm_compute; reflexivity|].
  split.
  - destruct faults_are_reported as [Halert _].
    destruct (Halert "A-01" text_onset_history []
                (TypeError "'>' not supported between instances of 'str' and 'datetime.time'"))
      as [-> _]; vm_compute; reflexivity.
  - split; [vm_compute; reflexivity|].
    destruct faults_are_reported as [_ Hzone].
    apply (Hzone (Num 28) "rem_sleep_pct" unpaired_config (KeyError "red_high2")).
    vm_compute; reflexivity.
Defined.

(** * The zone classifier *)

(** ** Finite floats against the infinite default bounds *)

Lemma finite_not_nan (v : float) : is_finite v = true -> is_nan v = false.
Proof. unfold is_finite. by destruct (is_nan v). Qed.

Lemma infinity_leb_finite (v : float) :
  is_finite v = true -> (infinity <=? v)%float = false.
Proof.
  unfold is_finite, is_nan, is_infinity. rewrite leb_spec, !FloatAxioms.eqb_spec, abs_spec.
  change (Prim2SF infinity) with (S754_infinity false).
  unfold SFleb, SFeqb.
  by destruct (Prim2SF v) as [[]|[]| |[] m e].
Qed.

Lemma finite_leb_neg_infinity (v : float) :
  is_finite v = true -> (v <=? neg_infinity)%float = false.
Proof.
  unfold is_finite, is_nan, is_infinity. rewrite leb_spec, !FloatAxioms.eqb_spec, abs_spec.
  change (Prim2SF neg_infinity) with (S754_infinity true).
  unfold SFleb, SFeqb.
  by destruct (Prim2SF v) as [[]|[]| |[] m e].
Qed.

(** ** One pair of bounds *)

Lemma within_bounds (low high : pyval) (v : float) :
  numeric_cell low = true -> numeric_cell high = true ->
  within low high (Num v) =
    Ok (match as_bound low, as_bound high with
        | Some l, Some h => contains v (l, h)
        | _, _ => false
        end).
Proof.
  intros Hl Hh. unfold within, contains.
  destruct low as [l| | |]; try done; destruct high as [h| | |]; try done; simpl.
  - destruct (is_nan l), (is_nan h); simpl; try done.
    by destruct (l <=? v)%float.
  - rewrite orb_true_r. by destruct (is_nan l).
Qed.

Lemma bound_cell_numeric (row : Series) column c :
  bound_cell row column = true -> row !! column = Some c -> numeric_cell c = true.
Proof. unfold bound_cell. intros H E. rewrite E in H. by destruct c. Qed.

Lemma bound_as_bound (row : Series) column c :
  row !! column = Some c -> bound row column = as_bound c.
Proof. unfold bound. by intros ->. Qed.

(** The primary pair, read with the infinite defaults of [row.get]. *)
Lemma within_primary (row : Series) low high (v : float) :
  is_finite v = true ->
  bound_cell row low = true -> bound_cell row high = true ->
  within (row_get row low (Num infinity)) (row_get row high (Num neg_infinity)) (Num v)
  = Ok (existsb (contains v) (range row low high)).
Proof.
  intros Hv Hl Hh. unfold row_get, range.
  destruct (row !! low) as [l|] eqn:El; destruct (row !! high) as [h|] eqn:Eh.
  - rewrite within_bounds by eauto using bound_cell_numeric.
    rewrite (bound_as_bound row low l), (bound_as_bound row high h) by done.
    destruct (as_bound l), (as_bound h); simpl; by rewrite ?orb_false_r.
  - rewrite within_bounds by eauto using bound_cell_numeric.
    rewrite (bound_as_bound row low l) by done. unfold bound. rewrite Eh.
    destruct (as_bound l); simpl; [|done].
    unfold contains. simpl. by rewrite finite_leb_neg_infinity, andb_false_r.
  - rewrite within_bounds by eauto using bound_cell_numeric.
    unfold bound at 1. rewrite El. simpl.
    destruct (as_bound h); [|done].
    unfold contains. simpl. by rewrite infinity_leb_finite.
  - rewrite within_bounds by done. unfold bound. rewrite El. simpl.
    unfold contains. simpl. by rewrite infinity_leb_finite.
Qed.

(** The secondary pair, when it is read. *)
Lemma within_secondary (row : Series) low2 high2 l h (v : float) :
  bound_cell row low2 = true -> bound_cell row high2 = true ->
  row !! low2 = Some l -> row !! high2 = Some h ->
  within l h (Num v) = Ok (existsb (contains v) (range row low2 high2)).
Proof.
  intros Hl Hh El Eh.
  rewrite within_bounds by eauto using bound_cell_numeric.
  unfold range. rewrite (bound_as_bound row low2 l), (bound_as_bound row high2 h) by done.
  destruct (as_bound l), (as_bound h); simpl; by rewrite ?orb_false_r.
Qed.

(** ** One band: primary and secondary pairs *)

Lemma band_status (row : Series) low high low2 high2 (v : float) :
  is_finite v = true ->
  bound_cell row low = true -> bound_cell row high = true ->
  bound_cell row low2 = true -> bound_cell row high2 = true ->
  secondary_paired row low2 high2 = true ->
  exists ranges,
    band_ranges row low high low2 high2 = Ok ranges
    /\ any_within ranges (Num v)
       = Ok (existsb (contains v) (range row low high ++ range row low2 high2)).
Proof.
  intros Hv Hl Hh Hl2 Hh2 Hp. unfold band_ranges, secondary_paired in *.
  rewrite existsb_app.
  assert (Hnone : bound row low2 = None ->
            any_within [(row_get row low (Num infinity), row_get row high (Num neg_infinity))]
              (Num v)
            = Ok (existsb (contains v) (range row low high)
                  || existsb (contains v) (range row low2 high2))).
  { intros Hb. unfold range at 2. rewrite Hb. simpl.
    rewrite within_primary by done.
    rewrite orb_false_r. simpl. by destruct (existsb _ _). }
  destruct (row !! low2) as [l|] eqn:El.
  - destruct (pd_notna l) eqn:Hn.
    + apply bool_decide_eq_true in Hp as [h Eh].
      unfold row_getitem. rewrite El, Eh. simpl.
      eexists; split; [done|]. simpl.
      rewrite within_primary by done. simpl.
      destruct (existsb (contains v) (range row low high)); [done|].
      rewrite (within_secondary row low2 high2 l h) by done. simpl.
      by destruct (existsb _ _).
    + eexists; split; [done|]. apply Hnone.
      unfold bound. rewrite El. unfold pd_notna in Hn.
      destruct l as [f| | |]; try done. simpl in *. by destruct (is_nan f).
  - eexists; split; [done|]. apply Hnone. unfold bound. by rewrite El.
Qed.

Lemma well_formed_config_row_cells (row : Series) :
  well_formed_config_row row = true ->
  (forall c, c ∈ bound_columns -> bound_cell row c = true)
  /\ secondary_paired row "red_low2" "red_high2" = true
  /\ secondary_paired row "yellow_low2" "yellow_high2" = true.
Proof.
  unfold well_formed_config_row. intros [[Hb Hr]%andb_prop Hy]%andb_prop.
  split; [|done]. intros c Hc. rewrite forallb_forall in Hb.
  by apply Hb, list_elem_of_In.
Qed.

(** The classifier on a finite value and a well-formed row. *)
Lemma get_zone_status_row (v : float) metric_name (thresholds : DataFrame) row rest :
  is_finite v = true ->
  matching_rows thresholds metric_name = Ok (row :: rest) ->
  well_formed_config_row row = true ->
  get_zone_status_try (Num v) metric_name thresholds = Ok (zone_of v row).
Proof.
  intros Hv Hm (Hb & Hr & Hy)%well_formed_config_row_cells.
  unfold get_zone_status_try, zone_of. simpl.
  rewrite (finite_not_nan v Hv), Hm. simpl.
  destruct (band_status row "red_low" "red_high" "red_low2" "red_high2" v)
    as (red & -> & Hred); try done; try (apply Hb; in_list).
  simpl. rewrite Hred. simpl. unfold critical_ranges.
  destruct (existsb (contains v) (range row "red_low" "red_high" ++ _)); [done|].
  destruct (band_status row "yellow_low" "yellow_high" "yellow_low2" "yellow_high2" v)
    as (yellow & -> & Hyellow); try done; try (apply Hb; in_list).
  simpl. rewrite Hyellow. simpl. unfold caution_ranges.
  destruct (existsb (contains v) (range row "yellow_low" "yellow_high" ++ _)); [done|].
  rewrite within_primary by (try done; apply Hb; in_list). simpl.
  unfold optimal_ranges. by destruct (existsb _ _).
Qed.

(** C3. For every finite value and every metric with a row in the
    threshold table (a well-formed row: each bound a number or absent),
    the zone classifier tests the critical ranges first (primary and
    secondary), then the caution ranges, then the optimal range, each a
    closed interval, and returns the band of the first group that
    contains the value: critical wins over caution and optimal, caution
    wins over optimal, and a value in no range is unknown. *)
Theorem zone_classifier_precedence (v : float) metric_name (thresholds : DataFrame)
    row rest :
  is_finite v = true ->
  matching_rows thresholds metric_name = Ok (row :: rest) ->
  well_formed_config_row row = true ->
  get_zone_status (Num v) metric_name thresholds = zone_of v row
  /\ (existsb (contains v) (critical_ranges row) = true ->
      get_zone_status (Num v) metric_name thresholds = "🔴 Red")
  /\ (existsb (contains v) (critical_ranges row) = false ->
      existsb (contains v) (caution_ranges row) = true ->
      get_zone_status (Num v) metric_name thresholds = "🟡 Yellow")
  /\ (existsb (contains v) (critical_ranges row) = false ->
      existsb (contains v) (caution_ranges row) = false ->
      existsb (contains v) (optimal_ranges row) = true ->
      get_zone_status (Num v) metric_name thresholds = "🟢 Green")
  /\ (existsb (contains v) (critical_ranges row) = false ->
      existsb (contains v) (caution_ranges row) = false ->
      existsb (contains v) (optimal_ranges row) = false ->
      get_zone_status (Num v) metric_name thresholds = "⚪ Unknown").
Proof.
  intros Hv Hm Hwf. unfold get_zone_status.
  rewrite (get_zone_status_row v metric_name thresholds row rest Hv Hm Hwf).
  unfold zone_of. split; [done|].
  split; [by intros ->|]. split; [by intros -> ->|].
  split; by intros -> -> ->.
Qed.

Lemma zone_classifier_precedence_witness :
  is_finite 28 = true
  /\ matching_rows rem_config "rem_sleep_pct" =
       Ok [fill (columns rem_config)
             (config_row2 "rem_sleep_pct" 20 25 16 19 0 15 26 30 31 100 "%")]
  /\ get_zone_status (Num 28) "rem_sleep_pct" rem_config =
       zone_of 28 (fill (columns rem_config)
                     (config_row2 "rem_sleep_pct" 20 25 16 19 0 15 26 30 31 100 "%")).
Proof.
  split; [reflexivity|]. split; [vm_compute; reflexivity|].
  apply (zone_classifier_precedence 28 "rem_sleep_pct" rem_config
           (fill (columns rem_config)
              (config_row2 "rem_sleep_pct" 20 25 16 19 0 15 26 30 31 100 "%")) []);
    vm_compute; reflexivity.
Defined.

(** C8. A REM-sleep percentage of 28 against the configured bands
    (critical [0,15] and [31,100], caution [16,19] and [26,30], optimal
    [20,25]) is in the caution zone, through the secondary caution band
    [26,30]: it lies in no critical range and not in [16,19]. *)
Theorem rem_sleep_28_is_caution :
  get_zone_status (Num 28) "rem_sleep_pct" metrics_config = "🟡 Yellow"
  /\ get_zone_status (Num 28) "rem_sleep_pct" rem_config = "🟡 Yellow"
  /\ matching_rows metrics_config "rem_sleep_pct" =
       Ok [fill (columns metrics_config)
             (config_row2 "rem_sleep_pct" 20 25 16 19 0 15 26 30 31 100 "%")]
  /\ critical_ranges (config_row2 "rem_sleep_pct" 20 25 16 19 0 15 26 30 31 100 "%")
     = [(0, 15); (31, 100)]%float
  /\ caution_ranges (config_row2 "rem_sleep_pct" 20 25 16 19 0 15 26 30 31 100 "%")
     = [(16, 19); (26, 30)]%float
  /\ optimal_ranges (config_row2 "rem_sleep_pct" 20 25 16 19 0 15 26 30 31 100 "%")
     = [(20, 25)]%float
  /\ existsb (contains 28) [(0, 15); (31, 100)]%float = false
  /\ contains 28 (16, 19)%float = false
  /\ contains 28 (26, 30)%float = true.
Proof. repeat split; vm_compute; reflexivity. Qed.

(** * Missing metrics *)

Lemma cell_delete (r : Series) column c :
  cell (delete column r) c = if decide (column = c) then Num nan else cell r c.
Proof.
  unfold cell. case_decide as Hc.
  - subst. by rewrite lookup_delete_eq.
  - by rewrite lookup_delete_ne.
Qed.

Lemma well_formed_observation_delete (r : Series) column :
  well_formed_observation r = true ->
  well_formed_observation (delete column r) = true.
Proof.
  intros [Hn Ht]%well_formed_observation_cells.
  unfold well_formed_observation. apply andb_true_intro. split.
  - apply forallb_forall. intros c Hc%list_elem_of_In.
    rewrite cell_delete. case_decide; [done|]. by apply Hn.
  - rewrite cell_delete. by case_decide.
Qed.

Lemma rows_remove_field (df : DataFrame) init r column :
  rows df = init ++ [r] ->
  rows (remove_field column df) = init ++ [delete column r].
Proof.
  intros E. unfold remove_field, len. simpl. rewrite E, length_app. simpl.
  replace (Init.Nat.pred (length init + 1)) with (length init + 0)%nat by lia.
  by rewrite alter_app_r.
Qed.

Lemma rows_drop_column (df : DataFrame) init r column :
  rows df = init ++ [r] ->
  rows (drop_column column df) = (delete column <$> init) ++ [delete column r].
Proof. intros E. unfold drop_column. simpl. by rewrite E, fmap_app. Qed.

Lemma well_formed_history_remove_field (df : DataFrame) column :
  well_formed_history df = true -> len df <> 0%nat ->
  well_formed_history (remove_field column df) = true
  /\ len (remove_field column df) <> 0%nat.
Proof.
  intros Hwf Hlen. destruct (nonempty_last df Hlen) as (init & r & E).
  unfold well_formed_history, len in *.
  rewrite (rows_remove_field df init r column E). rewrite E in Hwf.
  rewrite forallb_app in *. simpl in *.
  apply andb_prop in Hwf as [Hi [Hr _]%andb_prop].
  rewrite Hi, well_formed_observation_delete by done.
  split; [done|]. rewrite length_app. simpl. lia.
Qed.

Lemma well_formed_history_drop_column (df : DataFrame) column :
  well_formed_history df = true -> len df <> 0%nat ->
  well_formed_history (drop_column column df) = true
  /\ len (drop_column column df) <> 0%nat.
Proof.
  intros Hwf Hlen. unfold well_formed_history, len, drop_column in *. simpl.
  rewrite length_fmap. split; [|done].
  apply forallb_forall. intros r' Hin%list_elem_of_In.
  apply list_elem_of_fmap in Hin as (r & -> & Hr).
  apply well_formed_observation_delete.
  rewrite forallb_forall in Hwf. by apply Hwf, list_elem_of_In.
Qed.

(** A metric absent from the latest observation reads as its default. *)
Lemma default_reading (df : DataFrame) init r column default :
  (column, default) ∈ metric_defaults ->
  rows df = init ++ [r] ->
  column ∉ columns df \/ pd_isna (cell r column) = true ->
  reading column (read_latest df) = Some default.
Proof.
  intros Hin E Habs.
  assert (Hsafe : forall d, safe_get_value df column d = d).
  { intros d. rewrite (safe_get_value_last df init r) by done.
    destruct Habs as [Hc|Hc].
    - by rewrite bool_decide_eq_false_2.
    - unfold pd_notna. by rewrite Hc, andb_false_r. }
  apply list_elem_of_In in Hin. simpl in Hin.
  repeat (destruct Hin as [Hin|Hin];
          [injection Hin as <- <-; unfold reading; simpl (String.eqb _ _);
           unfold read_latest; cbn [hrv_night resting_hr temp_trend_c spo2_night
             deep_sleep_pct rem_sleep_pct sleep_duration_h resp_rate_night
             sleep_onset_time];
           by rewrite Hsafe|]).
  done.
Qed.

Lemma category_not_error (t : string) : t ∈ categories -> t <> "error".
Proof.
  intros Hin%list_elem_of_In. simpl in Hin.
  repeat (destruct Hin as [<-|Hin]; [done|]). done.
Qed.

(** A well-formed, non-empty history is classified into a category. *)
Lemma generate_alert_category athlete_id (df : DataFrame) genetic_dict :
  well_formed_history df = true -> len df <> 0%nat ->
  exists alert,
    generate_alert_try athlete_id df genetic_dict = Ok alert
    /\ generate_alert athlete_id df genetic_dict = alert
    /\ type alert ∈ categories
    /\ type alert <> "error".
Proof.
  intros Hwf Hlen.
  destruct (generate_alert_well_formed athlete_id df genetic_dict Hwf Hlen)
    as (f & alert & _ & Ht & Hty).
  exists alert. unfold generate_alert. rewrite Ht.
  assert (type alert ∈ categories) by (rewrite Hty; apply first_match_category).
  auto using category_not_error.
Qed.

(** C6. For every (well-formed) non-empty history, a metric absent from
    the latest observation or recorded there as no-data reads as its
    fixed default before the flags are computed (HRV 50, resting heart
    rate 60, temperature 36.5, blood oxygen 97, deep sleep 20, REM sleep
    20, duration 8, respiratory rate 15, and no sleep-onset time); so
    removing any one of these fields, from the latest observation or as a
    column, raises nothing and the classification still returns a
    category. *)
Theorem missing_metric_default athlete_id (df : DataFrame) genetic_dict column default :
  (column, default) ∈ metric_defaults ->
  well_formed_history df = true -> len df <> 0%nat ->
  (forall (df' : DataFrame) init r,
      rows df' = init ++ [r] ->
      column ∉ columns df' \/ pd_isna (cell r column) = true ->
      reading column (read_latest df') = Some default)
  /\ reading column (read_latest (remove_field column df)) = Some default
  /\ (exists alert,
        generate_alert_try athlete_id (remove_field column df) genetic_dict = Ok alert
        /\ generate_alert athlete_id (remove_field column df) genetic_dict = alert
        /\ type alert ∈ categories
        /\ type alert <> "error")
  /\ reading column (read_latest (drop_column column df)) = Some default
  /\ (exists alert,
        generate_alert_try athlete_id (drop_column column df) genetic_dict = Ok alert
        /\ generate_alert athlete_id (drop_column column df) genetic_dict = alert
        /\ type alert ∈ categories
        /\ type alert <> "error").
Proof.
  intros Hin Hwf Hlen. destruct (nonempty_last df Hlen) as (init & r & E).
  split; [intros df' init' r'; by apply default_reading|].
  split.
  { apply (default_reading _ init (delete column r)); [done| |].
    - by apply rows_remove_field.
    - right. rewrite cell_delete. by case_decide. }
  split.
  { destruct (well_formed_history_remove_field df column Hwf Hlen).
    by apply generate_alert_category. }
  split.
  { apply (default_reading _ (delete column <$> init) (delete column r)); [done| |].
    - by apply rows_drop_column.
    - left. unfold drop_column. simpl.
      intros [_ Hn]%elem_of_difference. apply Hn. by apply elem_of_singleton. }
  destruct (well_formed_history_drop_column df column Hwf Hlen).
  by apply generate_alert_category.
Qed.

Lemma missing_metric_default_witness :
  ("temp_trend_c", Num 36.5) ∈ metric_defaults
  /\ well_formed_history inflammation_history = true
  /\ len inflammation_history <> 0%nat
  /\ reading "temp_trend_c" (read_latest (remove_field "temp_trend_c" inflammation_history))
     = Some (Num 36.5)
  /\ exists alert,
      generate_alert_try "A-01" (remove_field "temp_trend_c" inflammation_history) [] = Ok alert
      /\ generate_alert "A-01" (remove_field "temp_trend_c" inflammation_history) [] = alert
      /\ type alert ∈ categories
      /\ type alert <> "error".
Proof.
  split; [in_list|]. split; [vm_compute; reflexivity|]. split; [done|].
  destruct (missing_metric_default "A-01" inflammation_history [] "temp_trend_c" (Num 36.5))
    as (_ & Hr & Ha & _); [in_list|vm_compute; reflexivity|done|].
  by split.
Defined.

(** * The genotype annotations *)

Lemma dict_get_elem (d : Dict) key v :
  NoDup d.*1 -> dict_get d key = Some v <-> (key, v) ∈ d.
Proof.
  induction d as [|[k w] d IH]; simpl; intros Hnd.
  - split; [done|]. by intros ?%not_elem_of_nil.
  - apply NoDup_cons in Hnd as [Hk Hnd].
    destruct (String.eqb_spec k key) as [->|Hne].
    + split.
      * intros [= ->]. by left.
      * intros [[= ->]|Hin]%elem_of_cons; [done|].
        exfalso. apply Hk. apply list_elem_of_fmap. by exists (key, v).
    + rewrite (IH Hnd). split.
      * by right.
      * intros [[= -> ->]|Hin]%elem_of_cons; done.
Qed.

(** A lookup does not depend on the order of insertion. *)
Lemma dict_get_permutation (d d' : Dict) key :
  NoDup d.*1 -> d' ≡ₚ d -> dict_get d' key = dict_get d key.
Proof.
  intros Hnd Hp.
  assert (Hnd' : NoDup d'.*1) by (by rewrite Hp).
  destruct (dict_get d key) as [v|] eqn:E.
  - apply dict_get_elem; [done|]. rewrite Hp. by apply dict_get_elem.
  - destruct (dict_get d' key) as [v'|] eqn:E'; [|done].
    apply dict_get_elem in E'; [|done]. rewrite Hp in E'.
    apply dict_get_elem in E'; [|done]. congruence.
Qed.

Lemma genetic_insights_annotate (d : Dict) : genetic_insights d = annotate d.
Proof.
  unfold annotate, annotation.
  destruct d as [|e d]; [done|].
  unfold genetic_insights, get_is.
  generalize (e :: d). clear e d. intros d.
  destruct (dict_get d "PER3") as [p|]; destruct (dict_get d "CLOCK") as [c|];
    destruct (dict_get d "ACTN3") as [a|]; simpl;
    repeat match goal with
      | |- context [String.eqb ?x ?y] =>
          destruct (String.eqb_spec x y) as [->|]; simpl
      end; done.
Qed.

Lemma annotation_length (d : Dict) g : length (annotation d g) <= 1.
Proof.
  unfold annotation. destruct (dict_get d g) as [label|]; [|simpl; lia].
  rewrite length_fmap. unfold recognised. simpl.
  repeat match goal with
    | |- context [String.eqb ?x ?y] =>
        destruct (String.eqb_spec x y); subst; simpl
    end; try lia; try done.
Qed.

Lemma annotation_elem (d : Dict) g i :
  i ∈ annotation d g <->
  exists label, dict_get d g = Some label /\ (g, label, i) ∈ recognised.
Proof.
  unfold annotation. destruct (dict_get d g) as [label|].
  - rewrite list_elem_of_fmap. split.
    + intros ([[g' l'] i'] & -> & Hin). simpl.
      apply list_elem_of_In, filter_In in Hin as [Hin Hb]. simpl in Hb.
      apply andb_prop in Hb as [->%String.eqb_eq ->%String.eqb_eq].
      exists l'. split; [done|]. by apply list_elem_of_In.
    + intros (l' & [= <-] & Hin). exists (g, label, i). split; [done|].
      apply list_elem_of_In, filter_In. split; [by apply list_elem_of_In|].
      simpl. by rewrite !String.eqb_refl.
  - split; [by intros ?%not_elem_of_nil|]. by intros (? & ? & _).
Qed.

(** C9. For every genotype dict the annotations are those of PER3, then
    those of CLOCK, then those of ACTN3, whatever the insertion order of
    the dict; each gene gives at most one annotation, and gives one
    exactly when its genotype is a recognised label (PER3 long or short,
    CLOCK AA, ACTN3 XX or RR). *)
Theorem genetic_insights_fixed_order (genetic_dict : Dict) :
  NoDup genetic_dict.*1 ->
  genetic_insights genetic_dict =
    annotation genetic_dict "PER3" ++ annotation genetic_dict "CLOCK"
      ++ annotation genetic_dict "ACTN3"
  /\ (forall g, length (annotation genetic_dict g) <= 1)
  /\ (forall g i,
        i ∈ annotation genetic_dict g <->
        exists label, dict_get genetic_dict g = Some label /\ (g, label, i) ∈ recognised)
  /\ (forall d' : Dict,
        d' ≡ₚ genetic_dict -> genetic_insights d' = genetic_insights genetic_dict).
Proof.
  intros Hnd. split; [apply genetic_insights_annotate|].
  split; [apply annotation_length|]. split; [apply annotation_elem|].
  intros d' Hp. rewrite !genetic_insights_annotate. unfold annotate, annotation.
  by rewrite !(dict_get_permutation genetic_dict d').
Qed.

Lemma genetic_insights_fixed_order_witness :
  NoDup [("ACTN3", "RR"); ("CLOCK", "GG"); ("PER3", "short")].*1
  /\ genetic_insights [("ACTN3", "RR"); ("CLOCK", "GG"); ("PER3", "short")]
     = [per3_short; actn3_rr]
  /\ genetic_insights [("PER3", "short"); ("CLOCK", "GG"); ("ACTN3", "RR")]
     = genetic_insights [("ACTN3", "RR"); ("CLOCK", "GG"); ("PER3", "short")].
Proof.
  assert (Hnd : NoDup [("ACTN3", "RR"); ("CLOCK", "GG"); ("PER3", "short")].*1)
    by (apply (bool_decide_unpack _); vm_compute; exact I).
  split; [exact Hnd|].
  destruct (genetic_insights_fixed_order _ Hnd) as (-> & _ & _ & Hp).
  split; [vm_compute; reflexivity|].
  rewrite Hp; [vm_compute; reflexivity|].
  rewrite (Permutation_swap _ _ _), (Permutation_swap ("ACTN3", "RR") _ _).
  by rewrite (Permutation_swap ("CLOCK", "GG") ("ACTN3", "RR") _).
Defined.

(** * Further properties of the helpers *)

(** ** [safe_get_value] *)

(** A value read with a present default is present. *)
Lemma safe_get_value_present (df : DataFrame) column default :
  pd_isna default = false -> pd_isna (safe_get_value df column default) = false.
Proof.
  intros Hd. unfold safe_get_value, safe_get_value_try.
  case_bool_decide; [|done].
  destruct (0 <? len df)%nat; simpl; [|by rewrite Hd].
  destruct (iloc_back df 1) as [r|]; simpl; [|done].
  by destruct (pd_isna (cell r column)) eqn:E.
Qed.

(** X1. [safe_get_value] never returns a missing value unless its
    default is missing, and it returns the default on an empty frame and
    for a column the frame does not have. *)
Theorem safe_get_value_never_missing (df : DataFrame) column default :
  pd_isna default = false ->
  pd_isna (safe_get_value df column default) = false
  /\ (len df = 0%nat -> safe_get_value df column default = default)
  /\ (column ∉ columns df -> safe_get_value df column default = default).
Proof.
  intros Hd. split; [by apply safe_get_value_present|].
  unfold safe_get_value, safe_get_value_try.
  case_bool_decide as Hc; [|done]. split; [|done].
  intros ->. simpl. by rewrite Hd.
Qed.

Lemma safe_get_value_never_missing_witness :
  pd_isna (Num 36.5) = false
  /\ pd_isna (safe_get_value (pd_DataFrame [observation 80 55 nan 98]) "temp_trend_c"
                (Num 36.5)) = false.
Proof.
  split; [reflexivity|].
  apply (safe_get_value_never_missing (pd_DataFrame [observation 80 55 nan 98])
           "temp_trend_c" (Num 36.5)).
  reflexivity.
Defined.

(** ** Statuses of the zone classifier *)

(** The statuses of a classification that met no fault, with what each
    one tells about the value and the table. *)
Lemma get_zone_status_try_cases (value : pyval) metric_name (thresholds : DataFrame) status :
  get_zone_status_try value metric_name thresholds = Ok status ->
  (status = "⚪ No Data" /\ pd_isna value = true)
  \/ (status = "⚪ No Config" /\ pd_isna value = false
      /\ matching_rows thresholds metric_name = Ok [])
  \/ (pd_isna value = false
      /\ (exists row rest, matching_rows thresholds metric_name = Ok (row :: rest))
      /\ (status = "🔴 Red" \/ status = "🟡 Yellow" \/ status = "🟢 Green"
          \/ status = "⚪ Unknown")).
Proof.
  unfold get_zone_status_try.
  destruct (pd_isna value); [intros [= <-]; by left|].
  destruct (matching_rows thresholds metric_name) as [[|row rest]|]; simpl; [|..|done].
  { intros [= <-]. right. by left. }
  intros H. right. right. split; [done|]. split; [by eexists _, _|].
  destruct (band_ranges row "red_low" _ _ _) as [red|]; simpl in H; [|done].
  destruct (any_within red value) as [[]|]; simpl in H; [by injection H as <-; auto| |done].
  destruct (band_ranges row "yellow_low" _ _ _) as [yellow|]; simpl in H; [|done].
  destruct (any_within yellow value) as [[]|]; simpl in H; [by injection H as <-; auto| |done].
  destruct (within _ _ value) as [[]|]; simpl in H; [| |done]; injection H as <-; auto.
Qed.

(** X2. The zone classifier answers "No Data" exactly when the value is
    missing ([NaN] or [None]), whatever the metric and the table, even a
    table without a [metric_name] column. *)
Theorem zone_no_data_iff_missing (value : pyval) metric_name (thresholds : DataFrame) :
  get_zone_status value metric_name thresholds = "⚪ No Data" <-> pd_isna value = true.
Proof.
  unfold get_zone_status. split.
  - destruct (get_zone_status_try value metric_name thresholds) as [status|] eqn:E;
      [|done].
    intros ->. apply get_zone_status_try_cases in E.
    destruct E as [[_ H]|[[H _]|(_ & _ & [H|[H|[H|H]]])]]; done.
  - intros H. unfold get_zone_status_try. by rewrite H.
Qed.

(** X3. The zone classifier answers "No Config" exactly when the value
    is present, the table has a [metric_name] column and no row of the
    table carries the metric name. *)
Theorem zone_no_config_iff_unlisted (value : pyval) metric_name (thresholds : DataFrame) :
  get_zone_status value metric_name thresholds = "⚪ No Config" <->
  pd_isna value = false
  /\ "metric_name" ∈ columns thresholds
  /\ Forall (fun row => is_metric metric_name row = false) (rows thresholds).
Proof.
  assert (Hrows : matching_rows thresholds metric_name = Ok [] <->
                  "metric_name" ∈ columns thresholds
                  /\ Forall (fun row => is_metric metric_name row = false) (rows thresholds)).
  { unfold matching_rows. case_bool_decide as Hc.
    - split.
      + intros [= H]. split; [done|]. apply Forall_forall. intros row Hin.
        destruct (is_metric metric_name row) eqn:E; [|done].
        assert (In row (List.filter (is_metric metric_name) (rows thresholds)))
          by (apply filter_In; split; [by apply list_elem_of_In|done]).
        rewrite H in *. done.
      + intros [_ H]. f_equal. induction H as [|row l Hrow _ IH]; [done|].
        simpl. by rewrite Hrow.
    - split; [done|]. by intros [? _]. }
  unfold get_zone_status. split.
  - destruct (get_zone_status_try value metric_name thresholds) as [status|] eqn:E;
      [|done].
    intros ->. apply get_zone_status_try_cases in E.
    destruct E as [[H _]|[(_ & Hv & Hm)|(_ & _ & [H|[H|[H|H]]])]]; try done.
    split; [done|]. by apply Hrows.
  - intros (Hv & Hm). apply Hrows in Hm. unfold get_zone_status_try.
    by rewrite Hv, Hm.
Qed.

(** X4. When the row of the metric holds a second critical lower bound
    and the table has no column for its upper bound, every present value
    gets the status "Error", also a value inside the primary critical
    range. *)
Theorem zone_unpaired_secondary_is_error (value : pyval) metric_name
    (thresholds : DataFrame) row rest l2 :
  pd_isna value = false ->
  matching_rows thresholds metric_name = Ok (row :: rest) ->
  row !! "red_low2" = Some l2 -> pd_notna l2 = true ->
  row !! "red_high2" = None ->
  get_zone_status value metric_name thresholds = "⚪ Error".
Proof.
  intros Hv Hm Hl Hn Hh. unfold get_zone_status, get_zone_status_try.
  rewrite Hv, Hm. simpl. unfold band_ranges, row_getitem. by rewrite Hl, Hn, Hh.
Qed.

Lemma zone_unpaired_secondary_is_error_witness :
  within (Num 0) (Num 15) (Num 10) = Ok true
  /\ get_zone_status (Num 10) "rem_sleep_pct" unpaired_config = "⚪ Error".
Proof.
  split; [reflexivity|].
  apply (zone_unpaired_secondary_is_error (Num 10) "rem_sleep_pct" unpaired_config
           (fill (columns unpaired_config)
              (<["red_low2" := Num 31]> (config_row "rem_sleep_pct" 20 25 16 19 0 15 "%")))
           [] (Num 31)); vm_compute; reflexivity.
Defined.

(** * Further properties of the alert classifier *)

(** The deviation logic reads the frame through its length and its
    last-but-one row only. *)
Lemma deviation_same_previous (df df' : DataFrame) hrv rhr :
  len df = len df' -> iloc_back df 2 = iloc_back df' 2 ->
  deviation df hrv rhr = deviation df' hrv rhr.
Proof. intros Hl Hp. unfold deviation. by rewrite Hl, Hp. Qed.

Lemma read_latest_same_last (df df' : DataFrame) init init' r :
  columns df = columns df' -> rows df = init ++ [r] -> rows df' = init' ++ [r] ->
  read_latest df = read_latest df'.
Proof.
  intros Hc E E'. unfold read_latest.
  by rewrite !(safe_get_value_last df init r), !(safe_get_value_last df' init' r), Hc.
Qed.

(** X5. Only the two most recent observations influence the alert:
    dropping every older row of a history leaves the alert unchanged. *)
Theorem generate_alert_last_two athlete_id cols init prev latest genetic_dict :
  generate_alert athlete_id {| columns := cols; rows := init ++ [prev; latest] |}
    genetic_dict
  = generate_alert athlete_id {| columns := cols; rows := [prev; latest] |} genetic_dict.
Proof.
  set (df := {| columns := cols; rows := init ++ [prev; latest] |}).
  set (df' := {| columns := cols; rows := [prev; latest] |}).
  assert (E : rows df = (init ++ [prev]) ++ [latest]) by (by rewrite <- app_assoc).
  assert (E' : rows df' = [prev] ++ [latest]) by done.
  unfold generate_alert, generate_alert_try.
  rewrite (iloc_back_last df _ _ E), (iloc_back_last df' _ _ E').
  rewrite (read_latest_same_last df df' _ _ latest eq_refl E E').
  assert (Hd : forall hrv rhr, deviation df hrv rhr = deviation df' hrv rhr).
  { intros hrv rhr. unfold deviation.
    rewrite (iloc_back_previous df init prev latest eq_refl).
    rewrite (iloc_back_previous df' [] prev latest eq_refl).
    destruct (Nat.leb_spec 2 (len df)) as [_|H];
      [|unfold len, df in H; simpl in H; rewrite length_app in H; simpl in H; lia].
    done. }
  unfold compute_flags. rewrite Hd.
  assert (Hl : (len df =? 0)%nat = false).
  { apply Nat.eqb_neq. unfold len, df. simpl. rewrite length_app. simpl. lia. }
  by rewrite Hl.
Qed.

(** Case analysis on every number formatting of a goal. *)
Ltac case_formats :=
  repeat (match goal with
          | |- context [py_format_f ?p ?x] => destruct (py_format_f p x)
          end; simpl).

(** X6. An alert of category circadian always comes with a recorded
    sleep-onset time later than 23:30, printed as HH:MM in its cause: the
    placeholder "Late" of the rule never appears. *)
Theorem circadian_has_onset_time athlete_id (df : DataFrame) genetic_dict :
  type (generate_alert athlete_id df genetic_dict) = "circadian" ->
  exists t deep,
    sleep_onset_time (read_latest df) = Time t
    /\ time_compare t ref_time = Gt
    /\ deep_sleep_pct (read_latest df) = Num deep
    /\ cause (generate_alert athlete_id df genetic_dict) =
         "HRV↓ + Deep Sleep↓(" +:+ format_float 1 deep +:+ "%) + Late Sleep("
           +:+ (zero_pad 2 (decimal (Z.of_N (hour t))) +:+ ":"
                  +:+ zero_pad 2 (decimal (Z.of_N (minute t)))) +:+ ")".
Proof.
  unfold generate_alert, generate_alert_try.
  remember (read_latest df) as v eqn:Hv. clear Hv.
  destruct (len df =? 0)%nat; [done|].
  destruct (iloc_back df 1) as [latest|]; simpl; [|done].
  unfold compute_flags.
  destruct v as [hrv rhr temp spo2 deep rem dur resp onset]. simpl.
  destruct (deviation df hrv rhr) as [[hd rr]|]; simpl; [|done].
  destruct (py_ge temp _) as [th|]; simpl; [|done].
  destruct (py_le spo2 _) as [sl|]; simpl; [|done].
  destruct (py_lt deep _) as [dl|] eqn:Edeep; simpl; [|done].
  destruct (py_lt rem _) as [rl|]; simpl; [|done].
  destruct (py_lt dur _) as [ss|]; simpl; [|done].
  destruct (py_ge resp _) as [rh|]; simpl; [|done].
  assert (Hrest : forall v' f,
            sleep_late f = false ->
            type match alert_rules v' f with
                 | Ok alert => alert
                 | Raise e => error_alert e
                 end <> "circadian").
  { intros v' f Hl. unfold alert_rules. rewrite Hl, andb_false_r.
    destruct (hrv_drop f && rhr_rise f && temp_high f && spo2_low f);
      [by case_formats|].
    destruct (hrv_drop f && rem_low f && negb (temp_high f)); [by case_formats|].
    destruct (spo2_low f && resp_high f); [by case_formats|done]. }
  destruct onset as [x|t|s|]; try done.
  - destruct (time_compare t ref_time) eqn:Ht; simpl;
      try (by intros H; apply Hrest in H).
    unfold alert_rules. simpl.
    destruct (hd && rr && th && sl); [by case_formats|].
    destruct (hd && dl && true) eqn:Hc.
    + destruct deep as [d| | |]; try done. simpl. intros _. by exists t, d.
    + destruct (hd && rl && negb th); [by case_formats|].
      destruct (sl && rh); [by case_formats|done].
  - simpl. by intros H; apply Hrest in H.
Qed.

Lemma circadian_has_onset_time_witness :
  type (generate_alert "A-01" late_night_history []) = "circadian"
  /\ cause (generate_alert "A-01" late_night_history []) =
       "HRV↓ + Deep Sleep↓(12.0%) + Late Sleep(23:45)".
Proof.
  split; [vm_compute; reflexivity|].
  destruct (circadian_has_onset_time "A-01" late_night_history [])
    as (t & deep & Ht & _ & Hd & ->); [vm_compute; reflexivity|].
  vm_compute in Ht. vm_compute in Hd.
  injection Ht as <-. injection Hd as <-. vm_compute. reflexivity.
Defined.

(** The classification of a frame whose readings are numbers. *)
Lemma generate_alert_try_numeric athlete_id (df : DataFrame) genetic_dict init r
    hrv rhr temp spo2 deep rem dur resp onset hd rr :
  rows df = init ++ [r] ->
  read_latest df =
    {| hrv_night := Num hrv; resting_hr := Num rhr; temp_trend_c := Num temp;
       spo2_night := Num spo2; deep_sleep_pct := Num deep; rem_sleep_pct := Num rem;
       sleep_duration_h := Num dur; resp_rate_night := Num resp;
       sleep_onset_time := onset |} ->
  onset = NoneV \/ (exists t, onset = Time t) ->
  deviation df (Num hrv) (Num rhr) = Ok (hd, rr) ->
  generate_alert_try athlete_id df genetic_dict =
    alert_rules
      {| hrv_night := Num hrv; resting_hr := Num rhr; temp_trend_c := Num temp;
         spo2_night := Num spo2; deep_sleep_pct := Num deep; rem_sleep_pct := Num rem;
         sleep_duration_h := Num dur; resp_rate_night := Num resp;
         sleep_onset_time := onset |}
      {| hrv_drop := hd; rhr_rise := rr;
         temp_high := (37.0 <=? temp)%float; spo2_low := (spo2 <=? 94)%float;
         deep_low := (deep <? 17)%float; rem_low := (rem <? 16)%float;
         sleep_short := (dur <? 7.0)%float; resp_high := (17 <=? resp)%float;
         sleep_late := match onset with
                       | Time t => ord_cmp OpGt (time_compare t ref_time)
                       | _ => false
                       end |}.
Proof.
  intros E Hv Ho Hd. unfold generate_alert_try.
  destruct (Nat.eqb_spec (len df) 0) as [Hl|_].
  { unfold len in Hl. rewrite E, length_app in Hl. simpl in Hl. lia. }
  rewrite (iloc_back_last df init r E), Hv. simpl.
  by rewrite (compute_flags_numeric df hrv rhr temp spo2 deep rem dur resp onset hd rr).
Qed.

(** X7. When the latest observation of a well-formed history lacks blood
    oxygen, deep sleep and REM sleep, the alert is the optimal one
    ("green"), whatever the other metrics and the previous observation
    are. *)
Theorem missing_signals_give_green athlete_id (df : DataFrame) init latest genetic_dict :
  well_formed_history df = true ->
  rows df = init ++ [latest] ->
  pd_isna (cell latest "spo2_night") = true ->
  pd_isna (cell latest "deep_sleep_pct") = true ->
  pd_isna (cell latest "rem_sleep_pct") = true ->
  generate_alert athlete_id df genetic_dict =
    {| type := "green";
       title := "🟢 Optimal Recovery State";
       cause := "All metrics within target ranges";
       rec := "Maintain current training and recovery protocols." |}.
Proof.
  intros Hwf E Hs Hd Hr.
  assert (Hlen : len df <> 0%nat).
  { unfold len. rewrite E, length_app. simpl. lia. }
  assert (Hv : numeric_readings (read_latest df)).
  { apply (well_formed_readings df init latest E).
    apply (well_formed_history_rows df); [done|]. rewrite E. set_solver. }
  pose proof (default_reading df init latest "spo2_night" (Num 97)) as Hs'.
  pose proof (default_reading df init latest "deep_sleep_pct" (Num 20)) as Hd'.
  pose proof (default_reading df init latest "rem_sleep_pct" (Num 20)) as Hr'.
  unfold reading in Hs', Hd', Hr'. simpl (String.eqb _ _) in *.
  specialize (Hs' ltac:(in_list) E (or_intror Hs)).
  specialize (Hd' ltac:(in_list) E (or_intror Hd)).
  specialize (Hr' ltac:(in_list) E (or_intror Hr)).
  remember (read_latest df) as v eqn:Ev.
  destruct Hv as [hrv rhr temp spo2 deep rem dur resp onset Ho]. simpl in *.
  injection Hs' as ->. injection Hd' as ->. injection Hr' as ->.
  destruct (deviation_total df hrv rhr Hwf Hlen) as [[hd rr] Hdev].
  unfold generate_alert.
  rewrite (generate_alert_try_numeric athlete_id df genetic_dict init latest
             hrv rhr temp 97 20 20 dur resp onset hd rr) by done.
  unfold alert_rules. simpl.
  change (97 <=? 94)%float with false. change (20 <? 17)%float with false.
  change (20 <? 16)%float with false.
  by rewrite !andb_false_r.
Qed.

Lemma missing_signals_give_green_witness :
  well_formed_history (pd_DataFrame [<["hrv_night" := Num 30]> (<["temp_trend_c" := Num 39]> ∅)])
    = true
  /\ type (generate_alert "A-01"
             (pd_DataFrame [<["hrv_night" := Num 30]> (<["temp_trend_c" := Num 39]> ∅)]) [])
     = "green".
Proof.
  split; [vm_compute; reflexivity|].
  rewrite (missing_signals_give_green "A-01" _ []
             (fill (columns (pd_DataFrame [<["hrv_night" := Num 30]>
                                             (<["temp_trend_c" := Num 39]> ∅)]))
                (<["hrv_night" := Num 30]> (<["temp_trend_c" := Num 39]> ∅))) []);
    vm_compute; reflexivity.
Defined.

(** X8. When the previous observation lacks heart-rate variability and
    resting heart rate, the relative tests are made against the
    defaults 50 and 60. *)
Theorem missing_previous_uses_defaults (df : DataFrame) init prev latest h r :
  rows df = init ++ [prev; latest] ->
  pd_isna (cell prev "hrv_night") = true ->
  pd_isna (cell prev "resting_hr") = true ->
  deviation df (Num h) (Num r) =
    Ok ((0.15 <? (50 - h) / 50)%float, (0.05 <? (r - 60) / 60)%float).
Proof.
  intros E Hh Hr.
  rewrite (deviation_previous df init prev latest 50 60 h r E).
  - done.
  - unfold prev_hrv_of. rewrite safe_get_value_single. unfold pd_notna. by rewrite Hh.
  - unfold prev_rhr_of. rewrite safe_get_value_single. unfold pd_notna. by rewrite Hr.
Qed.

Lemma missing_previous_uses_defaults_witness :
  deviation (pd_DataFrame [observation nan nan 36.5 97; observation 40 64 36.5 97])
    (Num 40) (Num 64) = Ok (true, true).
Proof.
  rewrite (missing_previous_uses_defaults _ []
             (fill (columns (pd_DataFrame [observation nan nan 36.5 97;
                                           observation 40 64 36.5 97]))
                (observation nan nan 36.5 97))
             (fill (columns (pd_DataFrame [observation nan nan 36.5 97;
                                           observation 40 64 36.5 97]))
                (observation 40 64 36.5 97)));
    vm_compute; reflexivity.
Defined.

(** ** Sleep duration *)

Lemma cell_insert (r : Series) column value c :
  cell (<[column := value]> r) c = if decide (column = c) then value else cell r c.
Proof.
  unfold cell. case_decide as Hc.
  - subst. by rewrite lookup_insert_eq.
  - by rewrite lookup_insert_ne.
Qed.

Lemma rows_set_field (df : DataFrame) init r column value :
  rows df = init ++ [r] ->
  rows (set_field column value df) = init ++ [<[column := value]> r].
Proof.
  intros E. unfold set_field, len. simpl. rewrite E, length_app. simpl.
  replace (Init.Nat.pred (length init + 1)) with (length init + 0)%nat by lia.
  by rewrite alter_app_r.
Qed.

Lemma safe_get_value_set_field_other (df : DataFrame) init r column value c default :
  rows df = init ++ [r] -> column <> c ->
  safe_get_value (set_field column value df) c default = safe_get_value df c default.
Proof.
  intros E Hc.
  rewrite (safe_get_value_last _ init (<[column := value]> r))
    by (by apply rows_set_field).
  rewrite (safe_get_value_last df init r) by done.
  rewrite cell_insert. case_decide; [done|].
  assert (bool_decide (c ∈ columns (set_field column value df))
          = bool_decide (c ∈ columns df)) as ->; [|done].
  apply bool_decide_ext. unfold set_field. simpl.
  rewrite elem_of_union, elem_of_singleton.
  split; [intros [?|?]; [done|congruence]|by left].
Qed.

Lemma deviation_set_field (df : DataFrame) init r column value hrv rhr :
  rows df = init ++ [r] ->
  deviation (set_field column value df) hrv rhr = deviation df hrv rhr.
Proof.
  intros E. apply deviation_same_previous.
  - unfold len. by rewrite (rows_set_field df init r), E, !length_app.
  - unfold iloc_back, len. rewrite (rows_set_field df init r column value E), E.
    rewrite !length_app. cbn [length].
    destruct (Nat.leb_spec 2 (length init + 1)); [|done].
    by rewrite !lookup_app_l by lia.
Qed.

(** X9. Sleep duration never changes the alert: in a well-formed
    history, replacing the sleep duration of the latest observation by
    any number gives the same alert (the short-sleep flag is computed and
    not used by any rule). *)
Theorem sleep_duration_never_alerts athlete_id (df : DataFrame) genetic_dict (x : float) :
  well_formed_history df = true ->
  generate_alert athlete_id (set_field "sleep_duration_h" (Num x) df) genetic_dict
  = generate_alert athlete_id df genetic_dict.
Proof.
  intros Hwf. destruct (decide (len df = 0%nat)) as [Hl|Hlen].
  { unfold set_field, len in *. destruct (rows df) eqn:E; [|done].
    unfold generate_alert, generate_alert_try, len. simpl. by rewrite E. }
  destruct (nonempty_last df Hlen) as (init & r & E).
  set (df' := set_field "sleep_duration_h" (Num x) df).
  assert (E' : rows df' = init ++ [<["sleep_duration_h" := Num x]> r])
    by (by apply rows_set_field).
  assert (Hv : numeric_readings (read_latest df)).
  { apply (well_formed_readings df init r E).
    apply (well_formed_history_rows df); [done|]. rewrite E. set_solver. }
  assert (exists dur', read_latest df' =
            {| hrv_night := hrv_night (read_latest df);
               resting_hr := resting_hr (read_latest df);
               temp_trend_c := temp_trend_c (read_latest df);
               spo2_night := spo2_night (read_latest df);
               deep_sleep_pct := deep_sleep_pct (read_latest df);
               rem_sleep_pct := rem_sleep_pct (read_latest df);
               sleep_duration_h := Num dur';
               resp_rate_night := resp_rate_night (read_latest df);
               sleep_onset_time := sleep_onset_time (read_latest df) |}) as [dur' Hv'].
  { destruct (numeric_reading df' init (<["sleep_duration_h" := Num x]> r)
                "sleep_duration_h" 8%float E') as [dur' Hdur].
    { rewrite cell_insert. by case_decide. }
    exists dur'. unfold read_latest at 1. rewrite Hdur. unfold df'.
    by rewrite !(safe_get_value_set_field_other df init r) by done. }
  remember (read_latest df) as v eqn:Ev.
  destruct Hv as [hrv rhr temp spo2 deep rem dur resp onset Ho]. simpl in Hv'.
  destruct (deviation_total df hrv rhr Hwf Hlen) as [[hd rr] Hd].
  unfold generate_alert.
  rewrite (generate_alert_try_numeric athlete_id df' genetic_dict init _
             hrv rhr temp spo2 deep rem dur' resp onset hd rr E' Hv' Ho)
    by (unfold df'; by rewrite (deviation_set_field df init r)).
  rewrite (generate_alert_try_numeric athlete_id df genetic_dict init r
             hrv rhr temp spo2 deep rem dur resp onset hd rr E (eq_sym Ev) Ho Hd).
  (* [alert_rules] reads neither the sleep duration nor the short-sleep flag. *)
  reflexivity.
Qed.

Lemma sleep_duration_never_alerts_witness :
  well_formed_history rested_history = true
  /\ sleep_duration_h (read_latest rested_history) = Num 8
  /\ sleep_duration_h (read_latest (set_field "sleep_duration_h" (Num 3) rested_history))
     = Num 3
  /\ generate_alert "A-01" (set_field "sleep_duration_h" (Num 3) rested_history) []
     = generate_alert "A-01" rested_history [].
Proof.
  split; [vm_compute; reflexivity|].
  split; [vm_compute; reflexivity|].
  split; [vm_compute; reflexivity|].
  apply (sleep_duration_never_alerts "A-01" rested_history [] 3).
  vm_compute; reflexivity.
Defined.

(** * The alert counts of the team overview *)

Lemma initial_alert_counts_lookup k :
  initial_alert_counts !! k = if bool_decide (k ∈ count_keys) then Some 0%nat else None.
Proof.
  unfold initial_alert_counts, count_keys.
  repeat (rewrite lookup_insert; case_decide;
          [subst; rewrite bool_decide_eq_true_2; [done|in_list]|]).
  rewrite lookup_empty, bool_decide_eq_false_2; [done|].
  intros Hin. repeat (apply elem_of_cons in Hin as [->|Hin]; [congruence|]).
  by apply elem_of_nil in Hin.
Qed.

Lemma initial_alert_counts_keys : six_keys initial_alert_counts.
Proof.
  intros k. rewrite initial_alert_counts_lookup.
  case_bool_decide; split; done.
Qed.

Lemma tally_cons k x l :
  tally k (x :: l) = ((if String.eqb k x then 1 else 0) + tally k l)%nat.
Proof. unfold tally. simpl. by destruct (String.eqb k x). Qed.

Lemma bucket_key load athlete_id : bucket load athlete_id ∈ count_keys.
Proof.
  unfold bucket. destruct (load athlete_id) as [loaded|]; [|in_list].
  destruct (existsb _ count_keys) eqn:E; [|in_list].
  apply existsb_exists in E as (k & Hk & ->%String.eqb_eq).
  by apply list_elem_of_In.
Qed.

(** One athlete adds one to the count of its bucket. *)
Lemma count_athlete_bucket load (alert_counts : gmap string nat) athlete_id :
  six_keys alert_counts ->
  exists n, alert_counts !! bucket load athlete_id = Some n
            /\ count_athlete load alert_counts athlete_id
               = Ok (<[bucket load athlete_id := S n]> alert_counts).
Proof.
  intros Hk.
  assert (He : exists n, alert_counts !! "error" = Some n) by (apply Hk; in_list).
  destruct He as [ne He].
  unfold count_athlete, bucket.
  destruct (load athlete_id) as [loaded|]; simpl (_ ≫= _).
  - remember (type (generate_alert athlete_id loaded.2 loaded.1)) as t eqn:Et.
    clear Et. destruct (existsb (String.eqb t) count_keys) eqn:E.
    + apply existsb_exists in E as (k & Hin & Heq%String.eqb_eq).
      destruct (proj2 (Hk t)) as [n Hn]; [rewrite Heq; by apply list_elem_of_In|].
      exists n. unfold increment, counts_getitem. by rewrite Hn.
    + destruct (alert_counts !! t) as [n|] eqn:Hn.
      * assert (Hin : t ∈ count_keys) by (apply Hk; eauto).
        apply list_elem_of_In in Hin.
        assert (existsb (String.eqb t) count_keys = true)
          by (apply existsb_exists; exists t; by rewrite String.eqb_refl).
        congruence.
      * exists ne. split; [done|].
        unfold increment at 1, counts_getitem at 1. rewrite Hn. simpl.
        unfold increment, counts_getitem. by rewrite He.
  - exists ne. split; [done|]. unfold increment, counts_getitem. by rewrite He.
Qed.

Lemma six_keys_insert (alert_counts : gmap string nat) k n :
  six_keys alert_counts -> k ∈ count_keys -> six_keys (<[k := n]> alert_counts).
Proof.
  intros Hk Hin k'. rewrite lookup_insert. case_decide; subst.
  - split; [done|]. by intros _; eexists.
  - apply Hk.
Qed.

(** The loop never raises, keeps the keys, and adds to each count the
    number of athletes of that bucket. *)
Lemma count_alerts_tally load athlete_ids (alert_counts : gmap string nat) :
  six_keys alert_counts ->
  exists counts,
    count_alerts load alert_counts athlete_ids = Ok counts
    /\ six_keys counts
    /\ forall k, counts !! k =
         (fun n => n + tally k (bucket load <$> athlete_ids))%nat <$> alert_counts !! k.
Proof.
  revert alert_counts. induction athlete_ids as [|athlete_id rest IH]; intros counts Hk.
  - exists counts. split; [done|]. split; [done|]. intros k. simpl.
    destruct (counts !! k); simpl; f_equal. unfold tally. simpl. lia.
  - destruct (count_athlete_bucket load counts athlete_id Hk) as (n & Hn & Hstep).
    simpl. rewrite Hstep. simpl.
    destruct (IH (<[bucket load athlete_id := S n]> counts)) as (counts' & -> & Hk' & Hc).
    { apply six_keys_insert; [done|apply bucket_key]. }
    exists counts'. split; [done|]. split; [done|]. intros k.
    rewrite Hc, lookup_insert, tally_cons.
    case_decide as Hb.
    + subst k. rewrite Hn, String.eqb_refl. simpl. f_equal. unfold fmap. lia.
    + destruct (String.eqb_spec k (bucket load athlete_id)); [congruence|].
      by destruct (counts !! k).
Qed.

(** Every element of a list of keys is tallied under exactly one key. *)
Lemma tally_total (l : list string) :
  Forall (fun x => x ∈ count_keys) l ->
  (tally "inflammation" l + tally "airway" l + (tally "circadian" l + tally "nutrition" l)
   + tally "green" l + tally "error" l)%nat = length l.
Proof.
  induction 1 as [|x l Hx _ IH]; [done|].
  rewrite !tally_cons. simpl length.
  apply list_elem_of_In in Hx. simpl in Hx.
  repeat (destruct Hx as [<-|Hx]; [simpl; lia|]). done.
Qed.

(** The alert of a non-empty history has one of the six counted types. *)
Lemma alert_type_key athlete_id (df : DataFrame) genetic_dict :
  len df <> 0%nat -> type (generate_alert athlete_id df genetic_dict) ∈ count_keys.
Proof.
  intros Hlen. unfold generate_alert, generate_alert_try.
  destruct (Nat.eqb_spec (len df) 0); [done|].
  destruct (iloc_back df 1); simpl; [|in_list].
  destruct (compute_flags df (read_latest df)) as [f|]; simpl; [|in_list].
  unfold alert_rules.
  repeat match goal with
    | |- context [if ?b then _ else _] => destruct b
    end; case_formats;
    try match goal with
      | |- context [strftime_HM ?x] => destruct (strftime_HM x); simpl
      end; in_list.
Qed.

(** X10. The counting loop of the team overview never raises and
    counts every athlete exactly once: the high-priority, the
    monitor-closely, the optimal and the error counts add up to the
    number of athletes. *)
Theorem alert_counts_add_up load athlete_ids :
  exists counts high medium green error,
    count_alerts load initial_alert_counts athlete_ids = Ok counts
    /\ high_risk counts = Ok high
    /\ medium_risk counts = Ok medium
    /\ counts_getitem counts "green" = Ok green
    /\ counts_getitem counts "error" = Ok error
    /\ (high + medium + green + error)%nat = length athlete_ids.
Proof.
  destruct (count_alerts_tally load athlete_ids initial_alert_counts
              initial_alert_counts_keys) as (counts & Hc & _ & Hl).
  assert (Hv : forall k, k ∈ count_keys ->
            counts !! k = Some (tally k (bucket load <$> athlete_ids))).
  { intros k Hk. by rewrite Hl, initial_alert_counts_lookup, bool_decide_eq_true_2. }
  exists counts. eexists _, _, _, _. split; [done|].
  unfold high_risk, medium_risk, counts_getitem.
  rewrite !Hv by in_list. simpl.
  split; [done|]. split; [done|]. split; [done|]. split; [done|].
  rewrite tally_total, length_fmap; [done|].
  apply Forall_fmap, Forall_forall. intros id _. apply bucket_key.
Qed.

(** X11. After the loop each of the six keys holds the number of
    athletes of its bucket and there is no other key.  An athlete whose
    selection raises, or whose history is empty (the category "no_data"
    has no key), is counted under "error"; any other athlete is counted
    under the category of its alert. *)
Theorem alert_counts_by_bucket load athlete_ids :
  (exists counts,
      count_alerts load initial_alert_counts athlete_ids = Ok counts
      /\ forall k, counts !! k =
           if bool_decide (k ∈ count_keys)
           then Some (tally k (bucket load <$> athlete_ids)) else None)
  /\ (forall athlete_id e, load athlete_id = Raise e -> bucket load athlete_id = "error")
  /\ (forall athlete_id genetic_dict df,
        load athlete_id = Ok (genetic_dict, df) -> len df = 0%nat ->
        bucket load athlete_id = "error")
  /\ (forall athlete_id genetic_dict df,
        load athlete_id = Ok (genetic_dict, df) -> len df <> 0%nat ->
        bucket load athlete_id = type (generate_alert athlete_id df genetic_dict)).
Proof.
  split; [|split; [|split]].
  - destruct (count_alerts_tally load athlete_ids initial_alert_counts
                initial_alert_counts_keys) as (counts & Hc & _ & Hl).
    exists counts. split; [done|]. intros k.
    rewrite Hl, initial_alert_counts_lookup. by case_bool_decide.
  - intros athlete_id e H. unfold bucket. by rewrite H.
  - intros athlete_id genetic_dict df H Hlen. unfold bucket. rewrite H. simpl.
    unfold generate_alert, generate_alert_try. by rewrite Hlen.
  - intros athlete_id genetic_dict df H Hlen. unfold bucket. rewrite H.
    cbn [fst snd].
    pose proof (alert_type_key athlete_id df genetic_dict Hlen) as Hin.
    apply list_elem_of_In in Hin.
    assert (existsb (String.eqb (type (generate_alert athlete_id df genetic_dict)))
              count_keys = true) as ->; [|done].
    apply existsb_exists. eexists. split; [exact Hin|apply String.eqb_refl].
Qed.

(** * The athlete page *)

(** X12. On the athlete page an alert that reports a fault is shown in
    a success box that carries its title and its recommendation and not
    its cause; the status analysis shows it as a success too, with the
    cause (the description of the fault) as its status. *)
Theorem fault_is_shown_as_success athlete_id (df : DataFrame) genetic_dict e :
  generate_alert_try athlete_id df genetic_dict = Raise e ->
  alert_banner (generate_alert athlete_id df genetic_dict) =
    st_success ("**❌ Analysis Error**" +:+ newline +:+ newline
                  +:+ "Check data quality and try refreshing the dashboard.")
  /\ status_analysis (generate_alert athlete_id df genetic_dict) =
       [st_success "**❌ Analysis Error**";
        st_markdown ("**Status:** Error processing data: "
                       +:+ substring 0 50 (str_exn e) +:+ "...");
        st_markdown "**Maintenance Plan:** Check data quality and try refreshing the dashboard."].
Proof. intros H. unfold generate_alert. rewrite H. split; reflexivity. Qed.

Lemma fault_is_shown_as_success_witness :
  generate_alert_try "A-01" text_onset_history [] =
    Raise (TypeError "'>' not supported between instances of 'str' and 'datetime.time'")
  /\ alert_banner (generate_alert "A-01" text_onset_history []) =
       st_success ("**❌ Analysis Error**" +:+ newline +:+ newline
                     +:+ "Check data quality and try refreshing the dashboard.").
Proof.
  split; [vm_compute; reflexivity|].
  apply (fault_is_shown_as_success "A-01" text_onset_history []
           (TypeError "'>' not supported between instances of 'str' and 'datetime.time'")).
  vm_compute; reflexivity.
Defined.

Lemma get_zone_status_unlisted (value : pyval) metric_name (thresholds : DataFrame) :
  pd_isna value = false -> matching_rows thresholds metric_name = Ok [] ->
  get_zone_status value metric_name thresholds = "⚪ No Config".
Proof.
  intros Hv Hm. unfold get_zone_status, get_zone_status_try. by rewrite Hv, Hm.
Qed.

(** X13. Against the threshold table of the template, which names its
    metrics by column, every metric card of the athlete page shows the
    status "No Config", whatever the latest observation holds: the name
    looked up is the column name with spaces and capitals ("Hrv Night"),
    and a missing value is replaced by 0 before the lookup. *)
Theorem metric_cards_show_no_config (latest : Series) name key unit :
  (name, (key, unit)) ∈ metrics_map ->
  (metric_card latest key metrics_config).2 = "⚪ No Config"
  /\ pd_isna (metric_card latest key metrics_config).1 = false
  /\ str_title (str_replace_char "_" " " key) <> key.
Proof.
  intros Hin. apply list_elem_of_In in Hin. simpl in Hin.
  unfold metric_card. cbn [fst snd].
  assert (Hv : pd_isna (safe_get_value (pd_DataFrame [latest]) key (Num 0)) = false)
    by (by apply safe_get_value_present).
  split; [|split; [done|]].
  - apply get_zone_status_unlisted; [done|]. clear Hv.
    repeat (destruct Hin as [[= <- <- <-]|Hin]; [vm_compute; reflexivity|]). done.
  - clear Hv.
    repeat (destruct Hin as [[= <- <- <-]|Hin]; [vm_compute; discriminate|]). done.
Qed.

Lemma metric_cards_show_no_config_witness :
  ("REM Sleep %", ("rem_sleep_pct", "%")) ∈ metrics_map
  /\ str_title (str_replace_char "_" " " "rem_sleep_pct") = "Rem Sleep Pct"
  /\ metric_card (<["rem_sleep_pct" := Num 28]> ∅) "rem_sleep_pct" metrics_config
     = (Num 28, "⚪ No Config").
Proof.
  split; [in_list|]. split; [reflexivity|].
  destruct (metric_cards_show_no_config (<["rem_sleep_pct" := Num 28]> ∅)
              "REM Sleep %" "rem_sleep_pct" "%") as (Hs & _); [in_list|].
  rewrite (surjective_pairing (metric_card _ _ _)), Hs. vm_compute. reflexivity.
Defined.

(** * The readiness score *)

(** X14. The readiness score counts two half-points for a full
    indicator and one for a half one: it is green from five half-points
    (at most one indicator at half, none at zero), yellow at exactly
    four, and red at three or fewer, so a score of exactly 50 is red.
    Colour and emoji always agree. *)
Theorem readiness_score_levels (recent_hrv recent_rhr recent_sleep : float) :
  score_emoji (overall_score recent_hrv recent_rhr recent_sleep) =
    (if (5 <=? readiness_points recent_hrv recent_rhr recent_sleep)%nat then "🟢"
     else if (4 <=? readiness_points recent_hrv recent_rhr recent_sleep)%nat then "🟡"
     else "🔴")
  /\ score_color (overall_score recent_hrv recent_rhr recent_sleep) =
    (if (5 <=? readiness_points recent_hrv recent_rhr recent_sleep)%nat then "#28a745"
     else if (4 <=? readiness_points recent_hrv recent_rhr recent_sleep)%nat then "#ffc107"
     else "#dc3545").
Proof.
  unfold overall_score, readiness_points, hrv_score, rhr_score, sleep_score, half_points.
  destruct (45 <? recent_hrv)%float, (35 <? recent_hrv)%float,
    (recent_rhr <? 65)%float, (recent_rhr <? 75)%float,
    (7.5 <? recent_sleep)%float, (6.5 <? recent_sleep)%float;
    split; vm_compute; reflexivity.
Qed.

(** * The data template *)

(** ** Order facts on floats *)

Lemma ltb_leb (a b : float) : (a <? b)%float = true -> (a <=? b)%float = true.
Proof.
  rewrite ltb_spec, leb_spec. unfold SFltb, SFleb.
  by destruct (SFcompare (Prim2SF a) (Prim2SF b)) as [[]|].
Qed.

Lemma SFcompare_refl (x y : spec_float) :
  SFleb x y = true -> SFcompare x x = Some Eq /\ SFcompare y y = Some Eq.
Proof.
  assert (Hc : forall m : positive, Pos.compare_cont Eq m m = Eq)
    by (intros m; apply Pos.compare_cont_refl).
  unfold SFleb.
  destruct x as [[]|[]| |[] m e], y as [[]|[]| |[] m' e']; simpl; try done;
    rewrite ?Z.compare_refl, ?Hc; done.
Qed.

Lemma leb_refl_left (a b : float) : (a <=? b)%float = true -> (a <=? a)%float = true.
Proof.
  rewrite !leb_spec. intros [H _]%SFcompare_refl. unfold SFleb. by rewrite H.
Qed.

Lemma leb_refl_right (a b : float) : (a <=? b)%float = true -> (b <=? b)%float = true.
Proof.
  rewrite !leb_spec. intros [_ H]%SFcompare_refl. unfold SFleb. by rewrite H.
Qed.

(** [max(lo, min(hi, x))] lies between [lo] and [hi], also for [NaN]. *)
Lemma clamp_bounds (lo hi x : float) :
  (lo <=? hi)%float = true ->
  (lo <=? py_max lo (py_min hi x))%float = true
  /\ (py_max lo (py_min hi x) <=? hi)%float = true.
Proof.
  intros H. unfold py_max, py_min.
  destruct (x <? hi)%float eqn:E1.
  - destruct (lo <? x)%float eqn:E2; eauto using ltb_leb, leb_refl_left.
  - destruct (lo <? hi)%float eqn:E2; eauto using ltb_leb, leb_refl_left, leb_refl_right.
Qed.

(** X15. Every clamped field of a generated row lies within the bounds
    written for its column, whatever the simulated value is (a [NaN]
    included): for instance the nightly HRV is always between 50 and
    200. *)
Theorem clamped_fields_within_bounds
    (rhr hrv spo2 deep rem light duration rr temp load : float) column v lo hi :
  (column, v) ∈ clamped_fields rhr hrv spo2 deep rem light duration rr temp load ->
  (column, (lo, hi)) ∈ field_bounds ->
  (lo <=? v)%float = true /\ (v <=? hi)%float = true.
Proof.
  intros Hv Hb. apply list_elem_of_In in Hv. apply list_elem_of_In in Hb.
  simpl in Hv, Hb.
  repeat (destruct Hv as [Hv|Hv];
          [injection Hv as <- <-;
           repeat (destruct Hb as [Hb|Hb];
                   [first [discriminate Hb
                          |injection Hb as <- <-; by apply clamp_bounds]|]);
           done|]).
  done.
Qed.

Lemma clamped_fields_within_bounds_witness :
  ("hrv_night", py_max 50 (py_min 200 31.4)) ∈ clamped_fields 50 31.4 98 20 20 40 8 14 36.6 90
  /\ ("hrv_night", (50, 200)%float) ∈ field_bounds
  /\ (50 <=? py_max 50 (py_min 200 31.4))%float = true
  /\ (py_max 50 (py_min 200 31.4) <=? 200)%float = true.
Proof.
  split; [in_list|]. split; [in_list|].
  apply (clamped_fields_within_bounds 50 31.4 98 20 20 40 8 14 36.6 90 "hrv_night");
    in_list.
Defined.
